(** * MQTT service: condition evaluation, dispatch and configuration merge

    A shallow embedding of [mqtt_service.py] (class [MQTTService]):
    [should_execute_script], [execute_script] and [merge_configs], with the
    Python values that [json.load]/[json.loads] produce, Python's exceptions
    as an explicit result type, and the logger and the process table as
    explicit state. *)

From Stdlib Require Import List String Ascii ZArith Bool Lia Permutation.
From Stdlib Require Import Floats.SpecFloat DecimalString.
Import ListNotations.
Local Open Scope string_scope.
Local Open Scope Z_scope.

Set Implicit Arguments.

(** ** Python values *)

Module PyValue.

(** The values [json.load] and [json.loads] build: [None], [bool], [int]
    (unbounded), [float] (an IEEE 754 double, as the Standard Library's
    [spec_float]), [str], [list] and [dict].  A dict is kept as its items in
    insertion order, the order in which [dict.items()] yields them; its keys
    are strings because JSON object keys are. *)
#[warnings="-register-all"]
Inductive value : Type :=
| VNone
| VBool (b : bool)
| VInt (n : Z)
| VFloat (f : spec_float)
| VStr (s : string)
| VList (xs : list value)
| VDict (items : list (string * value)).

Definition dict : Type := list (string * value).

(** [key in d] and [d.get(key)] on a dict. *)
Fixpoint dict_get (key : string) (d : dict) : option value :=
  match d with
  | [] => None
  | (k, v) :: rest => if String.eqb key k then Some v else dict_get key rest
  end.

Definition dict_mem (key : string) (d : dict) : bool :=
  match dict_get key d with Some _ => true | None => false end.

(** [d[key] = v]: an existing key keeps its position, a new key goes last. *)
Fixpoint dict_set (key : string) (v : value) (d : dict) : dict :=
  match d with
  | [] => [(key, v)]
  | (k, w) :: rest =>
      if String.eqb key k then (k, v) :: rest else (k, w) :: dict_set key v rest
  end.

Definition dict_keys (d : dict) : list string := map fst d.

(** [isinstance(v, dict)] and [isinstance(v, (int, float))]; [bool] is a
    subclass of [int], so [True] and [False] pass the second test. *)
Definition is_dict (v : value) : bool :=
  match v with VDict _ => true | _ => false end.

Definition is_number (v : value) : bool :=
  match v with VBool _ | VInt _ | VFloat _ => true | _ => false end.

(** *** Numbers

    Python compares [int], [bool] and [float] by their exact mathematical
    value.  A finite number is [m * 2^e]. *)
Inductive number : Type :=
| NNaN
| NInf (negative : bool)
| NFin (m e : Z).

Definition number_of_float (f : spec_float) : number :=
  match f with
  | S754_zero _ => NFin 0 0
  | S754_infinity s => NInf s
  | S754_nan => NNaN
  | S754_finite s m e => NFin (if s then Z.neg m else Z.pos m) e
  end.

Definition as_number (v : value) : option number :=
  match v with
  | VBool b => Some (NFin (if b then 1 else 0) 0)
  | VInt n => Some (NFin n 0)
  | VFloat f => Some (number_of_float f)
  | _ => None
  end.

(** [None] is the unordered case: a NaN on either side. *)
Definition number_compare (x y : number) : option comparison :=
  match x, y with
  | NNaN, _ | _, NNaN => None
  | NInf s, NInf t =>
      Some (match s, t with
            | true, false => Lt
            | false, true => Gt
            | _, _ => Eq
            end)
  | NInf s, NFin _ _ => Some (if s then Lt else Gt)
  | NFin _ _, NInf t => Some (if t then Gt else Lt)
  | NFin m1 e1, NFin m2 e2 =>
      let e := Z.min e1 e2 in
      Some (Z.compare (m1 * 2 ^ (e1 - e)) (m2 * 2 ^ (e2 - e)))
  end.

Definition number_eqb (x y : number) : bool :=
  match number_compare x y with Some Eq => true | _ => false end.

Definition number_ltb (x y : number) : bool :=
  match number_compare x y with Some Lt => true | _ => false end.

Definition number_leb (x y : number) : bool :=
  match number_compare x y with Some Lt | Some Eq => true | _ => false end.

(** *** Equality: Python's [==]

    Numbers compare by value across [bool], [int] and [float]; strings with
    strings; lists element by element; dicts key by key whatever the order;
    values of different kinds are unequal.  [==] never raises on these
    values.

    Inside a list or dict, CPython compares two elements by identity first.
    Every NaN that [json] decodes is the one object [json.decoder.NaN], so
    two NaN elements count as equal there although [NaN == NaN] is false. *)
Definition both_nan (a b : value) : bool :=
  match a, b with
  | VFloat S754_nan, VFloat S754_nan => true
  | _, _ => false
  end.

Fixpoint py_eq (a b : value) {struct a} : bool :=
  match a with
  | VNone => match b with VNone => true | _ => false end
  | VBool _ | VInt _ | VFloat _ =>
      match as_number a, as_number b with
      | Some x, Some y => number_eqb x y
      | _, _ => false
      end
  | VStr s => match b with VStr t => String.eqb s t | _ => false end
  | VList xs =>
      match b with
      | VList ys =>
          (fix elems (xs ys : list value) {struct xs} : bool :=
             match xs, ys with
             | [], [] => true
             | x :: xs', y :: ys' =>
                 (both_nan x y || py_eq x y) && elems xs' ys'
             | _, _ => false
             end) xs ys
      | _ => false
      end
  | VDict d =>
      match b with
      | VDict d' =>
          Nat.eqb (List.length d) (List.length d') &&
          (fix entries (d : list (string * value)) {struct d} : bool :=
             match d with
             | [] => true
             | (k, v) :: rest =>
                 match dict_get k d' with
                 | Some v' => (both_nan v v' || py_eq v v') && entries rest
                 | None => false
                 end
             end) d
      | _ => false
      end
  end.

(** [a != b] is the negation of [a == b] on these values. *)
Definition py_ne (a b : value) : bool := negb (py_eq a b).

End PyValue.

(** ** Exceptions *)

Inductive exn : Type :=
| TypeError
| AttributeError
| KeyError.

Inductive result (A : Type) : Type :=
| Ret (a : A)
| Raise (e : exn).

Arguments Ret {A} a.
Arguments Raise {A} e.

Definition bind {A B : Type} (r : result A) (k : A -> result B) : result B :=
  match r with
  | Ret a => k a
  | Raise e => Raise e
  end.

Notation "x <- r ;; k" := (bind r (fun x => k))
  (at level 61, r at next level, right associativity).

Definition returns {A : Type} (r : result A) : Prop := exists a, r = Ret a.

(** ** The condition evaluator *)

Module Evaluator.
Import PyValue.

(** [bool(v)], as [not conditions] uses it. *)
Definition truthy (v : value) : bool :=
  match v with
  | VNone => false
  | VBool b => b
  | VInt n => negb (n =? 0)
  | VFloat f => negb (number_eqb (number_of_float f) (NFin 0 0))
  | VStr s => negb (String.eqb s EmptyString)
  | VList xs => match xs with [] => false | _ => true end
  | VDict d => match d with [] => false | _ => true end
  end.

(** [needle in hay] on two strings: the substring test. *)
Fixpoint str_contains (needle hay : string) : bool :=
  String.prefix needle hay ||
  match hay with
  | EmptyString => false
  | String _ rest => str_contains needle rest
  end.

(** [key in data] for a string [key]: key membership on a dict, the
    substring test on a string, element membership on a list, and
    [TypeError] on the values that are not containers. *)
Definition py_contains (data : value) (key : string) : result bool :=
  match data with
  | VDict d => Ret (dict_mem key d)
  | VStr s => Ret (str_contains key s)
  | VList xs => Ret (existsb (fun x => py_eq x (VStr key)) xs)
  | VNone | VBool _ | VInt _ | VFloat _ => Raise TypeError
  end.

(** [data[key]] for a string [key]: only a dict can be indexed by a
    string. *)
Definition py_getitem (data : value) (key : string) : result value :=
  match data with
  | VDict d =>
      match dict_get key d with
      | Some v => Ret v
      | None => Raise KeyError
      end
  | _ => Raise TypeError
  end.

(** [conditions.items()]. *)
Definition py_items (v : value) : result dict :=
  match v with
  | VDict d => Ret d
  | _ => Raise AttributeError
  end.

(** The four relational operators of the [if]/[elif] chain. *)
Inductive relop : Type := Gt_ | Lt_ | Ge_ | Le_.

Definition relop_holds (op : relop) (x y : number) : bool :=
  match op, number_compare x y with
  | Gt_, Some Gt => true
  | Lt_, Some Lt => true
  | Ge_, Some (Gt | Eq) => true
  | Le_, Some (Lt | Eq) => true
  | _, _ => false
  end.

(** [isinstance(actual_value, (int, float)) and actual_value OP threshold]:
    the [and] skips the comparison when the first test fails; the comparison
    of a number with a value that is not a number raises [TypeError]. *)
Definition relational (op : relop) (actual_value threshold : value)
  : result bool :=
  if is_number actual_value then
    match as_number actual_value, as_number threshold with
    | Some x, Some y => Ret (relop_holds op x y)
    | _, _ => Raise TypeError
    end
  else Ret false.

(** [expected_value.get('threshold', expected_value.get('value'))]. *)
Definition term_threshold (expected_value : dict) : value :=
  match dict_get "threshold" expected_value with
  | Some t => t
  | None =>
      match dict_get "value" expected_value with
      | Some v => v
      | None => VNone
      end
  end.

(** The body of the [for] loop after [actual_value = data[key]].
    [Ret false] is [return False]; [Ret true] lets the loop go on. *)
Definition check_term (expected_value actual_value : value) : result bool :=
  match expected_value with
  | VDict e =>
      match dict_get "operator" e with
      | Some operator =>
          let threshold := term_threshold e in
          if py_eq operator (VStr ">") then
            relational Gt_ actual_value threshold
          else if py_eq operator (VStr "<") then
            relational Lt_ actual_value threshold
          else if py_eq operator (VStr ">=") then
            relational Ge_ actual_value threshold
          else if py_eq operator (VStr "<=") then
            relational Le_ actual_value threshold
          else if py_eq operator (VStr "==") then
            Ret (negb (py_ne actual_value threshold))
          else if py_eq operator (VStr "!=") then
            Ret (negb (py_eq actual_value threshold))
          else Ret true
      | None => Ret (negb (py_ne actual_value expected_value))
      end
  | _ => Ret (negb (py_ne actual_value expected_value))
  end.

(** [for key, expected_value in conditions.items(): ...] followed by
    [return True]. *)
Fixpoint conditions_loop (items : dict) (data : value) : result bool :=
  match items with
  | [] => Ret true
  | (key, expected_value) :: rest =>
      present <- py_contains data key ;;
      if negb present then Ret false
      else
        actual_value <- py_getitem data key ;;
        ok <- check_term expected_value actual_value ;;
        if ok then conditions_loop rest data else Ret false
  end.

Section ShouldExecute.

(** [json.loads]: [None] stands for [json.JSONDecodeError].  Its other
    exceptions, which the function does not catch, are in
    [Decoding.should_execute_script_decoding]. *)
Variable json_loads : string -> option value.

Definition topic_conditions (topic_config : dict) : value :=
  match dict_get "conditions" topic_config with
  | Some c => c
  | None => VDict []
  end.

Definition should_execute_script (topic_config : dict) (payload : string)
  : result bool :=
  let conditions := topic_conditions topic_config in
  if negb (truthy conditions) then Ret true
  else
    let data :=
      match json_loads payload with
      | Some v => v
      | None => VStr payload
      end in
    items <- py_items conditions ;;
    conditions_loop items data.

End ShouldExecute.

(** *** Vocabulary for statements about terms *)

(** The operator strings that the [if]/[elif] chain tests for. *)
Definition relational_operators : list string := [">"; "<"; ">="; "<="].
Definition known_operators : list string :=
  relational_operators ++ ["=="; "!="].

Definition relop_of_string (s : string) : option relop :=
  if String.eqb s ">" then Some Gt_
  else if String.eqb s "<" then Some Lt_
  else if String.eqb s ">=" then Some Ge_
  else if String.eqb s "<=" then Some Le_
  else None.

(** A literal term: anything but a dict with an ['operator'] key. *)
Definition is_literal_term (expected_value : value) : bool :=
  match expected_value with
  | VDict e => negb (dict_mem "operator" e)
  | _ => true
  end.

(** The relational operator of a term, when it is an operator term with
    one. *)
Definition term_relop (expected_value : value) : option relop :=
  match expected_value with
  | VDict e =>
      match dict_get "operator" e with
      | Some (VStr s) => relop_of_string s
      | _ => None
      end
  | _ => None
  end.

(** A term whose relational comparison, if it has one, is against a
    number. *)
Definition numeric_threshold (expected_value : value) : bool :=
  match expected_value, term_relop expected_value with
  | VDict e, Some _ => is_number (term_threshold e)
  | _, _ => true
  end.

Definition numeric_thresholds (conditions : dict) : bool :=
  forallb (fun kv => numeric_threshold (snd kv)) conditions.

(** A term is satisfied by a value when the loop body lets the loop go
    on. *)
Definition term_satisfied (expected_value actual_value : value) : Prop :=
  check_term expected_value actual_value = Ret true.

(** A condition holds on a record when its field is there and its term is
    satisfied by the field's value. *)
Definition condition_holds (d : dict) (kv : string * value) : Prop :=
  exists actual_value,
    dict_get (fst kv) d = Some actual_value /\
    term_satisfied (snd kv) actual_value.

Definition field_absent (d : dict) (conditions : dict) : Prop :=
  exists key expected_value,
    In (key, expected_value) conditions /\ dict_get key d = None.

End Evaluator.

(** ** Configuration merge *)

Module Config.
Import PyValue.

(** [merge_configs(default, user)].  [result] starts as a copy of [default];
    the loop visits [user.items()] in order and assigns [result[key]].  The
    recursive call is on [value], an element of [user]. *)
Fixpoint merge_into (user : value) (default : dict) {struct user} : dict :=
  match user with
  | VDict items =>
      (fix loop (items : list (string * value)) (result : dict)
           {struct items} : dict :=
         match items with
         | [] => result
         | (key, value) :: rest =>
             loop rest
               (match dict_get key result with
                | Some (VDict sub) =>
                    if is_dict value
                    then dict_set key (VDict (merge_into value sub)) result
                    else dict_set key value result
                | _ => dict_set key value result
                end)
         end) items default
  | _ => default
  end.

Definition merge_configs (default user : dict) : dict :=
  merge_into (VDict user) default.

(** One iteration of the loop of [merge_configs]. *)
Definition merge_step (result : dict) (key : string) (value : value) : dict :=
  match dict_get key result with
  | Some (VDict sub) =>
      match value with
      | VDict u => dict_set key (VDict (merge_configs sub u)) result
      | _ => dict_set key value result
      end
  | _ => dict_set key value result
  end.

(** The merge as the specification words it, key by key: a key that
    [user] does not have keeps the default; a key whose values in both are
    records gets their recursive merge; any other key of [user] takes the
    value from [user]. *)
Definition merged_entry (default user : dict) (key : string) : option value :=
  match dict_get key user with
  | None => dict_get key default
  | Some u =>
      match dict_get key default, u with
      | Some (VDict sub), VDict uu => Some (VDict (merge_configs sub uu))
      | _, _ => Some u
      end
  end.

End Config.

(** ** The dispatcher *)

Module Dispatcher.

Inductive level : Type := DEBUG | INFO | WARNING | ERROR.

(** One call of [self.logger.<level>(message)]. *)
Definition log_record : Type := (level * string)%type.

(** What [os.environ] and the [env] argument hold. *)
Definition environment : Type := list (string * string).

Fixpoint env_set (key v : string) (env : environment) : environment :=
  match env with
  | [] => [(key, v)]
  | (k, w) :: rest =>
      if String.eqb key k then (k, v) :: rest else (k, w) :: env_set key v rest
  end.

Fixpoint env_get (key : string) (env : environment) : option string :=
  match env with
  | [] => None
  | (k, v) :: rest => if String.eqb key k then Some v else env_get key rest
  end.

(** The arguments of one [subprocess.run] call. *)
Record run_call : Type := {
  argv : list string;
  env : environment;
  capture_output : bool;
  text : bool;
  timeout : Z
}.

(** How [subprocess.run] ends: a [CompletedProcess], [TimeoutExpired], or
    another exception of class [Exception], of which the handler formats
    the text. *)
Inductive run_outcome : Type :=
| Completed (returncode : Z) (stdout stderr : string)
| TimeoutExpired
| OtherException (message : string).

(** What the file system knows about a path.  [os.path.exists] only asks
    whether there is an entry; the permission bit is here so that
    statements about it can be written. *)
Record file_info : Type := { executable : bool }.

(** The environment [execute_script] runs in. *)
Record world : Type := {
  files : string -> option file_info;
  environ : environment;
  sys_executable : string;
  subprocess_run : run_call -> run_outcome
}.

Definition path_exists (w : world) (path : string) : bool :=
  match files w path with Some _ => true | None => false end.

Definition path_executable (w : world) (path : string) : bool :=
  match files w path with Some f => executable f | None => false end.

(** The log written so far and the [subprocess.run] calls made so far,
    oldest first. *)
Record state : Type := {
  log : list log_record;
  run_calls : list run_call
}.

Definition initial : state := {| log := []; run_calls := [] |}.

Definition logger (l : level) (message : string) (st : state) : state :=
  {| log := log st ++ [(l, message)]; run_calls := run_calls st |}.

Definition record_run (c : run_call) (st : state) : state :=
  {| log := log st; run_calls := run_calls st ++ [c] |}.

(** [str(n)] for an [int]. *)
Definition str_of_int (n : Z) : string :=
  DecimalString.NilZero.string_of_int (Z.to_int n).

Definition nonempty (s : string) : bool := negb (String.eqb s EmptyString).

(** The handling of the value [subprocess.run] returned or raised. *)
Definition log_outcome (script_path : string) (o : run_outcome) (st : state)
  : state :=
  match o with
  | Completed returncode stdout stderr =>
      if returncode =? 0 then
        let st := logger INFO
                    ("Script " ++ script_path ++ " executed successfully") st in
        if nonempty stdout
        then logger DEBUG ("Script output: " ++ stdout) st
        else st
      else
        let st := logger ERROR
                    ("Script " ++ script_path ++ " failed with return code "
                     ++ str_of_int returncode) st in
        if nonempty stderr
        then logger ERROR ("Script error: " ++ stderr) st
        else st
  | TimeoutExpired =>
      logger ERROR ("Script " ++ script_path ++ " timed out") st
  | OtherException message =>
      logger ERROR
        ("Error executing script " ++ script_path ++ ": " ++ message) st
  end.

(** [execute_script(script_path, topic, payload)].  No path of it raises:
    the outcome of [subprocess.run] is logged whatever it is. *)
Definition execute_script (w : world) (script_path topic payload : string)
    (st : state) : state :=
  if negb (path_exists w script_path) then
    logger ERROR ("Script not found: " ++ script_path) st
  else
    let env := env_set "MQTT_PAYLOAD" payload
                 (env_set "MQTT_TOPIC" topic (environ w)) in
    let call := {| argv := [sys_executable w; script_path];
                   env := env;
                   capture_output := true;
                   text := true;
                   timeout := 30 |} in
    log_outcome script_path (subprocess_run w call) (record_run call st).

(** The call [execute_script] makes when the script is on disk. *)
Definition handler_call (w : world) (script_path topic payload : string)
  : run_call :=
  {| argv := [sys_executable w; script_path];
     env := env_set "MQTT_PAYLOAD" payload
              (env_set "MQTT_TOPIC" topic (environ w));
     capture_output := true;
     text := true;
     timeout := 30 |}.

End Dispatcher.

(** ** The default configuration and sample messages *)

Module Samples.
Import PyValue.

(** 25.0, 32.5 and 1.0 as doubles. *)
Definition float_25 : spec_float := S754_finite false 7036874417766400 (-48).
Definition float_32_5 : spec_float := S754_finite false 4573968371548160 (-47).

(** [DEFAULT_CONFIG]. *)
Definition DEFAULT_CONFIG : dict :=
  [ ("mqtt", VDict
       [ ("broker", VStr "localhost");
         ("port", VInt 1883);
         ("username", VNone);
         ("password", VNone);
         ("client_id", VStr "mqtt-service");
         ("keepalive", VInt 60) ]);
    ("topics", VDict
       [ ("sensor/temperature", VDict
            [ ("script", VStr "/usr/local/bin/handle_temperature.py");
              ("conditions", VDict
                 [ ("threshold", VFloat float_25);
                   ("operator", VStr ">") ]) ]);
         ("device/status", VDict
            [ ("script", VStr "/usr/local/bin/handle_device_status.py");
              ("conditions", VDict [ ("status", VStr "offline") ]) ]) ]);
    ("logging", VDict
       [ ("level", VStr "INFO");
         ("format",
          VStr "%(asctime)s - %(name)s - %(levelname)s - %(message)s") ]) ].

(** The double quote, and a JSON string literal. *)
Definition dquote : string := String "034"%char EmptyString.
Definition jstr (s : string) : string := dquote ++ s ++ dquote.

(** Message payloads, as the text on the wire. *)
Definition payload_temperature_32_5 : string :=
  "{" ++ jstr "temperature" ++ ": 32.5}".
Definition payload_temperature_35 : string :=
  "{" ++ jstr "temperature" ++ ": 35}".
Definition payload_temperature_20 : string :=
  "{" ++ jstr "temperature" ++ ": 20}".
Definition payload_temperature_text : string :=
  "{" ++ jstr "temperature" ++ ": " ++ jstr "hot" ++ "}".
Definition payload_status_online : string :=
  "{" ++ jstr "status" ++ ": " ++ jstr "online" ++ "}".
Definition payload_status_offline_d1 : string :=
  "{" ++ jstr "status" ++ ":" ++ jstr "offline" ++ ","
      ++ jstr "device_id" ++ ":" ++ jstr "d1" ++ "}".
Definition payload_status_one_text : string :=
  "{" ++ jstr "status" ++ ": " ++ jstr "1" ++ "}".
Definition payload_status_one : string :=
  "{" ++ jstr "status" ++ ": 1}".
Definition payload_not_json : string := "not-json".
Definition payload_status_line : string := "status=offline".

(** What [json.loads] returns on the JSON payloads above. *)
Definition decoded_payloads : list (string * value) :=
  [ (payload_temperature_32_5, VDict [("temperature", VFloat float_32_5)]);
    (payload_temperature_35, VDict [("temperature", VInt 35)]);
    (payload_temperature_20, VDict [("temperature", VInt 20)]);
    (payload_temperature_text, VDict [("temperature", VStr "hot")]);
    (payload_status_online, VDict [("status", VStr "online")]);
    (payload_status_offline_d1,
     VDict [("status", VStr "offline"); ("device_id", VStr "d1")]);
    (payload_status_one_text, VDict [("status", VStr "1")]);
    (payload_status_one, VDict [("status", VInt 1)]) ].

(** [json.loads] on the sample payloads: the decoded value on the JSON
    texts listed in [decoded_payloads], [JSONDecodeError] on
    [payload_not_json] and [payload_status_line], which are not JSON.  The
    lemmas below apply it to these payloads only. *)
Definition sample_json_loads (payload : string) : option value :=
  dict_get payload decoded_payloads.

(** Topic rules. *)
Definition rule (script : string) (conditions : dict) : dict :=
  [ ("script", VStr script); ("conditions", VDict conditions) ].

Definition operator_term (operator : string) (threshold : value) : value :=
  VDict [ ("operator", VStr operator); ("threshold", threshold) ].

Definition rule_temperature_above_30 : dict :=
  rule "/usr/local/bin/handle_temperature.py"
       [ ("temperature", operator_term ">" (VInt 30)) ].

Definition rule_temperature_above_text : dict :=
  rule "/usr/local/bin/handle_temperature.py"
       [ ("temperature", operator_term ">" (VStr "30")) ].

Definition rule_status_offline : dict :=
  rule "/usr/local/bin/handle_device_status.py"
       [ ("status", VStr "offline") ].


Definition rule_status_one : dict :=
  rule "/usr/local/bin/handle_device_status.py" [ ("status", VInt 1) ].

Definition operator_value_term (operator : string) (threshold : value)
  : value :=
  VDict [ ("operator", VStr operator); ("value", threshold) ].

Definition rule_temperature_above_30_value : dict :=
  rule "/usr/local/bin/handle_temperature.py"
       [ ("temperature", operator_value_term ">" (VInt 30)) ].

Definition rule_temperature_text_then_humidity : dict :=
  rule "/usr/local/bin/handle_temperature.py"
       [ ("temperature", operator_term ">" (VStr "30"));
         ("humidity", VInt 1) ].

Definition rule_temperature_between : dict :=
  rule "/usr/local/bin/handle_temperature.py"
       [ ("temperature", operator_term "between" (VInt 30)) ].

Definition rule_no_conditions : dict :=
  rule "/usr/local/bin/handle_temperature.py" [].

(** A user configuration: another broker, and logging switched to a
    plain string. *)
Definition user_config : dict :=
  [ ("mqtt", VDict [ ("broker", VStr "broker.example"); ("port", VInt 8883) ]);
    ("logging", VStr "off") ].

(** A world in which the temperature handler is on disk without the
    executable permission and runs to completion, and nothing else is on
    disk. *)
Definition world_handler_not_executable : Dispatcher.world :=
  {| Dispatcher.files := fun path =>
       if String.eqb path "/usr/local/bin/handle_temperature.py"
       then Some {| Dispatcher.executable := false |}
       else None;
     Dispatcher.environ := [("PATH", "/usr/bin")];
     Dispatcher.sys_executable := "/usr/bin/python3";
     Dispatcher.subprocess_run :=
       fun _ => Dispatcher.Completed 0 EmptyString EmptyString |}.

End Samples.

(** ** The service callbacks and the configuration loader *)

Module Service.
Import PyValue Evaluator Dispatcher.

(** What a callback can end with besides returning: an exception of the
    evaluator's kind, [UnicodeDecodeError] from [bytes.decode], or an
    exception of the MQTT client. *)
Inductive error : Type :=
| PyError (e : exn)
| UnicodeDecodeError
| ClientError (message : string).

Inductive completion : Type :=
| Returned
| Raised (e : error).

(** [topic_config.get('conditions', {})] needs a dict: any other value has
    no [get], and the call raises [AttributeError]. *)
Definition should_execute_script_on (json_loads : string -> option value)
    (topic_config : value) (payload : string) : result bool :=
  match topic_config with
  | VDict tc => should_execute_script json_loads tc payload
  | _ => Raise AttributeError
  end.

(** The value of ['script'] as the path [execute_script] is declared on.
    [os.path.exists] raises [TypeError] on [None], a float, a list or a
    dict.  It reads an [int] or a [bool] as a file descriptor; the file
    system of this model has paths only, and that case is left out
    ([None] below). *)
Inductive script_ref : Type :=
| ScriptPath (path : string)
| ScriptTypeError
| ScriptDescriptor.

Definition script_ref_of (v : value) : script_ref :=
  match v with
  | VStr s => ScriptPath s
  | VInt _ | VBool _ => ScriptDescriptor
  | VNone | VFloat _ | VList _ | VDict _ => ScriptTypeError
  end.

Section Callbacks.

(** [bytes.decode('utf-8')]: [None] stands for [UnicodeDecodeError]. *)
Variable utf8_decode : string -> option string.
Variable json_loads : string -> option value.
Variable w : world.

(** The part of [on_message] under [if topic in self.config['topics']]. *)
Definition dispatch_configured (topics : value) (topic payload : string)
    (st : state) : option (completion * state) :=
  match py_getitem topics topic with
  | Raise e => Some (Raised (PyError e), st)
  | Ret topic_config =>
      match should_execute_script_on json_loads topic_config payload with
      | Raise e => Some (Raised (PyError e), st)
      | Ret false => Some (Returned, st)
      | Ret true =>
          match py_getitem topic_config "script" with
          | Raise e => Some (Raised (PyError e), st)
          | Ret script =>
              match script_ref_of script with
              | ScriptPath path =>
                  Some (Returned, execute_script w path topic payload st)
              | ScriptTypeError => Some (Raised (PyError TypeError), st)
              | ScriptDescriptor => None
              end
          end
      end
  end.

(** [on_message(client, userdata, msg)] with [msg.topic] and the bytes of
    [msg.payload].  The result is how the callback ends and the state it
    leaves; [None] is the one case left out, a ['script'] that is an [int]
    or a [bool]. *)
Definition on_message (config : dict) (topic raw_payload : string)
    (st : state) : option (completion * state) :=
  match utf8_decode raw_payload with
  | None => Some (Raised UnicodeDecodeError, st)
  | Some payload =>
      let st :=
        logger INFO
          ("Received message on " ++ topic ++ ": " ++ payload) st in
      match dict_get "topics" config with
      | None => Some (Raised (PyError KeyError), st)
      | Some topics =>
          match py_contains topics topic with
          | Raise e => Some (Raised (PyError e), st)
          | Ret false => Some (Returned, st)
          | Ret true => dispatch_configured topics topic payload st
          end
      end
  end.

(** [client.subscribe(topic)]: [None] when the client accepts the topic,
    the text of its exception otherwise. *)
Variable subscribe : string -> option string.

(** The loop of [on_connect] over the topics: the subscriptions made and
    the records logged, and whether a call of [subscribe] ended it. *)
Fixpoint subscribe_all (topics : list string) (subscribed : list string)
    (st : state) : completion * list string * state :=
  match topics with
  | [] => (Returned, subscribed, st)
  | topic :: rest =>
      match subscribe topic with
      | Some message => (Raised (ClientError message), subscribed, st)
      | None =>
          subscribe_all rest (subscribed ++ [topic])
            (logger INFO ("Subscribed to topic: " ++ topic) st)
      end
  end.

(** [self.config['topics'].keys()]. *)
Definition py_keys (v : value) : result (list string) :=
  match v with
  | VDict d => Ret (dict_keys d)
  | _ => Raise AttributeError
  end.

(** [on_connect(client, userdata, flags, reason_code)], with the text of
    [reason_code]; [subscribed] is what the client is subscribed to. *)
Definition on_connect (config : dict) (reason_code : string)
    (subscribed : list string) (st : state)
  : completion * list string * state :=
  let st :=
    logger INFO
      ("Connected to MQTT broker with result code " ++ reason_code) st in
  match dict_get "topics" config with
  | None => (Raised (PyError KeyError), subscribed, st)
  | Some topics =>
      match py_keys topics with
      | Raise e => (Raised (PyError e), subscribed, st)
      | Ret keys => subscribe_all keys subscribed st
      end
  end.

End Callbacks.

(** *** [load_config] *)

(** What is at [self.config_file]: nothing; a file that [open] or
    [json.load] fails on, with the text of the exception; or a file that
    decodes to a value. *)
Inductive config_file : Type :=
| FileMissing
| FileFails (reason : string)
| FileDecodes (v : value).

(** [type(v).__name__]. *)
Definition type_name (v : value) : string :=
  match v with
  | VNone => "NoneType"
  | VBool _ => "bool"
  | VInt _ => "int"
  | VFloat _ => "float"
  | VStr _ => "str"
  | VList _ => "list"
  | VDict _ => "dict"
  end.

(** A call of [self.logger.<level>(message)].  [has_logger] tells whether
    [self.logger] has been assigned: [__init__] assigns it after it has
    called [load_config], and reading the attribute before raises
    [AttributeError]. *)
Definition self_logger (has_logger : bool) (l : level) (message : string)
    (records : list log_record) : result (list log_record) :=
  if has_logger then Ret (records ++ [(l, message)])%list
  else Raise AttributeError.

(** The [except Exception as e] handler of [load_config]: it logs the
    text of [e] and returns the defaults. *)
Definition load_config_handler (has_logger : bool) (reason : string)
    (records : list log_record) : result (dict * list log_record) :=
  records <- self_logger has_logger ERROR
               ("Error loading config: " ++ reason) records ;;
  Ret (Samples.DEFAULT_CONFIG, records).

(** [load_config()]: the configuration it returns and the records it
    logs, or the exception it raises. *)
Definition load_config (has_logger : bool) (path : string)
    (file : config_file) : result (dict * list log_record) :=
  match file with
  | FileDecodes (VDict user) =>
      Ret (Config.merge_configs Samples.DEFAULT_CONFIG user, [])
  | FileDecodes v =>
      (* [user.items()] raises AttributeError inside [merge_configs] *)
      load_config_handler has_logger
        ("'" ++ type_name v ++ "' object has no attribute 'items'") []
  | FileFails reason => load_config_handler has_logger reason []
  | FileMissing =>
      match self_logger has_logger WARNING
              ("Config file " ++ path ++ " not found, using defaults") []
      with
      | Ret records => Ret (Samples.DEFAULT_CONFIG, records)
      | Raise _ =>
          (* the AttributeError is raised inside the [try] *)
          load_config_handler has_logger
            "'MQTTService' object has no attribute 'logger'" []
      end
  end.

(** [self.config = self.load_config()] in [__init__]: [self.logger] is
    not assigned yet. *)
Definition load_config_in_init (path : string) (file : config_file)
  : result (dict * list log_record) :=
  load_config false path file.

End Service.

(** ** The evaluator with every outcome of [json.loads] *)

Module Decoding.
Import PyValue Evaluator.

(** How [json.loads(payload)] ends: with a value; with
    [json.JSONDecodeError], which [should_execute_script] catches; or with
    another exception, which it does not catch ([ValueError] on an integer
    of more than 4300 digits, [RecursionError] on deep nesting). *)
Inductive decoding : Type :=
| Decoded (v : value)
| JSONDecodeError
| DecoderRaises (exception : string).

(** How [should_execute_script] ends then: as the evaluator does, or with
    the exception of the decoder. *)
Inductive ending : Type :=
| Evaluated (r : result bool)
| DecoderException (exception : string).

(** [should_execute_script] again, the [try] around [json.loads] written
    out: only [JSONDecodeError] is caught, and the decoder runs before
    [conditions.items()]. *)
Definition should_execute_script_decoding (json_loads : string -> decoding)
    (topic_config : dict) (payload : string) : ending :=
  let conditions := topic_conditions topic_config in
  if negb (truthy conditions) then Evaluated (Ret true)
  else
    match json_loads payload with
    | DecoderRaises exception => DecoderException exception
    | Decoded v =>
        Evaluated (items <- py_items conditions ;; conditions_loop items v)
    | JSONDecodeError =>
        Evaluated (items <- py_items conditions ;;
                   conditions_loop items (VStr payload))
    end.

(** The decoder as [Evaluator.should_execute_script] takes it: a value,
    or [None] for the exception that is caught. *)
Definition caught (json_loads : string -> decoding) (payload : string)
  : option value :=
  match json_loads payload with
  | Decoded v => Some v
  | JSONDecodeError | DecoderRaises _ => None
  end.

(** A payload of 5000 digits, and a decoder that refuses it as
    [json.loads] does. *)
Fixpoint nines (n : nat) : string :=
  match n with
  | O => EmptyString
  | S n' => String "9" (nines n')
  end.

Definition payload_5000_digits : string := nines (50 * 100).

Definition json_loads_with_limit (payload : string) : decoding :=
  if String.eqb payload payload_5000_digits then DecoderRaises "ValueError"
  else
    match Samples.sample_json_loads payload with
    | Some v => Decoded v
    | None => JSONDecodeError
    end.

End Decoding.

(** ** More vocabulary and samples *)

Module MoreSamples.
Import PyValue Evaluator Dispatcher Samples.

(** The verdict of one condition on a record, as a boolean: the field is
    there and the loop body returns without [return False]. *)
Definition condition_verdict (d : dict) (kv : string * value) : bool :=
  match dict_get (fst kv) d with
  | Some actual_value =>
      match check_term (snd kv) actual_value with
      | Ret b => b
      | Raise _ => false
      end
  | None => false
  end.

(** What holds of every dict that [json.load] builds: its keys are
    distinct, and so are those of the dicts among its values, at every
    depth. *)
Inductive distinct_keys : dict -> Prop :=
| distinct_keys_intro (d : dict) :
    NoDup (dict_keys d) ->
    (forall key sub, In (key, VDict sub) d -> distinct_keys sub) ->
    distinct_keys d.



(** The rule of [DEFAULT_CONFIG] for [sensor/temperature]. *)
Definition default_temperature_rule : dict :=
  [ ("script", VStr "/usr/local/bin/handle_temperature.py");
    ("conditions", VDict
       [ ("threshold", VFloat float_25); ("operator", VStr ">") ]) ].

(** The records [execute_script] adds to the log. *)
Definition new_records (before after : state) : list log_record :=
  skipn (List.length (log before)) (log after).

Definition is_error_record (r : log_record) : bool :=
  match fst r with ERROR => true | _ => false end.

(** A world whose handlers are all on disk and never finish in time. *)
Definition world_handler_hangs : world :=
  {| files := fun _ => Some {| executable := true |};
     environ := [("PATH", "/usr/bin"); ("MQTT_TOPIC", "stale")];
     sys_executable := "/usr/bin/python3";
     subprocess_run := fun _ => TimeoutExpired |}.

(** A world whose handlers are all on disk and exit with status 2 and a
    message on standard error. *)
Definition world_handler_fails : world :=
  {| files := fun _ => Some {| executable := true |};
     environ := [("PATH", "/usr/bin")];
     sys_executable := "/usr/bin/python3";
     subprocess_run := fun _ => Completed 2 EmptyString "boom" |}.

(** [bytes.decode] and [client.subscribe] for the samples: every payload
    is taken as valid UTF-8, every topic is accepted. *)
Definition decode_any (raw : string) : option string := Some raw.
Definition subscribe_any (topic : string) : option string := None.

(** A configuration with a wildcard topic and a rule without a script. *)
Definition config_wildcard : dict :=
  [ ("topics", VDict
       [ ("sensor/+", VDict
            [ ("script", VStr "/usr/local/bin/handle_temperature.py") ]);
         ("device/status", VDict
            [ ("conditions", VDict [ ("status", VStr "offline") ]) ]) ]) ].

(** JSON payloads that are not records, and what they decode to. *)
Definition json_loads_scalar (payload : string) : option value :=
  if String.eqb payload "42" then Some (VInt 42)
  else if String.eqb payload "null" then Some VNone
  else if String.eqb payload ("[" ++ jstr "status" ++ "]")
       then Some (VList [VStr "status"])
  else sample_json_loads payload.

(** The state after the first line of [on_message] has logged the
    message. *)
Definition received (topic payload : string) (st : state) : state :=
  logger INFO ("Received message on " ++ topic ++ ": " ++ payload) st.

(** The record [on_connect] logs for a subscription. *)
Definition subscribed_record (topic : string) : log_record :=
  (INFO, "Subscribed to topic: " ++ topic).

(** A user configuration with one topic of its own. *)
Definition user_config_door : dict :=
  [ ("topics", VDict
       [ ("home/door", VDict
            [ ("script", VStr "/usr/local/bin/door.py") ]) ]) ].

(** A client that refuses the empty topic. *)
Definition subscribe_non_empty (topic : string) : option string :=
  if String.eqb topic EmptyString then Some "Invalid topic." else None.

(** A configuration with an empty topic between two others. *)
Definition config_empty_topic : dict :=
  [ ("topics", VDict
       [ ("a", VDict [ ("script", VStr "/usr/local/bin/a.py") ]);
         (EmptyString, VDict [ ("script", VStr "/usr/local/bin/b.py") ]);
         ("c", VDict [ ("script", VStr "/usr/local/bin/c.py") ]) ]) ].

End MoreSamples.

(** * Properties *)

(** ** Dictionaries *)

Module DictFacts.
Import PyValue.

Lemma dict_get_set_same (key : string) (v : value) (d : dict) :
  dict_get key (dict_set key v d) = Some v.
Proof.
  induction d as [| [k w] rest IH]; simpl.
  - now rewrite String.eqb_refl.
  - destruct (String.eqb key k) eqn:E; simpl; rewrite E; auto.
Qed.

Lemma dict_get_set_other (key key' : string) (v : value) (d : dict) :
  key' <> key -> dict_get key' (dict_set key v d) = dict_get key' d.
Proof.
  intros Hne.
  induction d as [| [k w] rest IH]; simpl.
  - destruct (String.eqb_spec key' key); congruence.
  - destruct (String.eqb_spec key k) as [-> | Hk]; simpl.
    + destruct (String.eqb_spec key' k); congruence.
    + now rewrite IH.
Qed.

Lemma dict_get_absent (key : string) (d : dict) :
  ~ In key (dict_keys d) -> dict_get key d = None.
Proof.
  induction d as [| [k w] rest IH]; simpl; intros Hn; auto.
  destruct (String.eqb_spec key k) as [-> | Hk].
  - exfalso; auto.
  - apply IH; intros Hin; auto.
Qed.

Lemma dict_get_In (key : string) (v : value) (d : dict) :
  dict_get key d = Some v -> In (key, v) d.
Proof.
  induction d as [| [k w] rest IH]; simpl; intros H; [discriminate |].
  destruct (String.eqb_spec key k) as [-> | Hk]; auto.
  injection H as ->; auto.
Qed.

Lemma dict_mem_true (key : string) (d : dict) :
  dict_mem key d = true <-> exists v, dict_get key d = Some v.
Proof.
  unfold dict_mem; destruct (dict_get key d); split; intros H; eauto.
  - discriminate.
  - destruct H; discriminate.
Qed.

End DictFacts.

(** ** The condition evaluator *)

Module EvaluatorFacts.
Import PyValue Evaluator DictFacts.

(** On a decoded record one step of the loop is: absent field, [False];
    present field, the verdict of its term. *)
Lemma conditions_loop_record (key : string) (expected_value : value)
    (rest d : dict) :
  conditions_loop ((key, expected_value) :: rest) (VDict d) =
  match dict_get key d with
  | None => Ret false
  | Some actual_value =>
      ok <- check_term expected_value actual_value ;;
      if ok then conditions_loop rest (VDict d) else Ret false
  end.
Proof.
  simpl. unfold dict_mem. destruct (dict_get key d); reflexivity.
Qed.

(** On a payload kept as text the first key decides: [False] when the key
    does not occur in the text, [TypeError] from [data[key]] when it
    does. *)
Lemma conditions_loop_text (key : string) (expected_value : value)
    (rest : dict) (payload : string) :
  conditions_loop ((key, expected_value) :: rest) (VStr payload) =
  if str_contains key payload then Raise TypeError else Ret false.
Proof.
  simpl. destruct (str_contains key payload); reflexivity.
Qed.

Section WithDecoder.

Variable json_loads : string -> option value.

Lemma should_execute_script_record (topic_config items d : dict)
    (payload : string) :
  topic_conditions topic_config = VDict items ->
  json_loads payload = Some (VDict d) ->
  should_execute_script json_loads topic_config payload =
  conditions_loop items (VDict d).
Proof.
  intros Hc Hd. unfold should_execute_script. rewrite Hc, Hd.
  destruct items; reflexivity.
Qed.

Lemma should_execute_script_text (topic_config : dict) (key : string)
    (expected_value : value) (rest : dict) (payload : string) :
  topic_conditions topic_config = VDict ((key, expected_value) :: rest) ->
  json_loads payload = None ->
  should_execute_script json_loads topic_config payload =
  if str_contains key payload then Raise TypeError else Ret false.
Proof.
  intros Hc Hd. unfold should_execute_script. rewrite Hc, Hd.
  cbn [truthy negb py_items bind]. apply conditions_loop_text.
Qed.

End WithDecoder.

End EvaluatorFacts.

(** ** Claims about the evaluator *)

Module EvaluatorClaims.
Import PyValue Evaluator DictFacts EvaluatorFacts Samples.
Local Open Scope list_scope.

(** The comparisons of the loop body raise nothing but [TypeError]. *)
Lemma relational_raises (op : relop) (a t : value) (e : exn) :
  relational op a t = Raise e -> e = TypeError.
Proof.
  unfold relational.
  destruct (is_number a); [| discriminate].
  destruct (as_number a), (as_number t); intros H; inversion H; reflexivity.
Qed.

Lemma check_term_raises (expected_value a : value) (e : exn) :
  check_term expected_value a = Raise e -> e = TypeError.
Proof.
  unfold check_term.
  destruct expected_value; try discriminate.
  destruct (dict_get "operator" items) as [op |]; [| discriminate].
  repeat match goal with
         | |- context [if ?c then _ else _] => destruct c
         end;
    try discriminate; apply relational_raises.
Qed.

(** On a record the loop returns a boolean or raises [TypeError]. *)
Lemma conditions_loop_record_outcome (items d : dict) :
  (exists b, conditions_loop items (VDict d) = Ret b) \/
  conditions_loop items (VDict d) = Raise TypeError.
Proof.
  induction items as [| [k e] rest IH].
  - left; exists true; reflexivity.
  - rewrite conditions_loop_record.
    destruct (dict_get k d) as [a |]; [| left; exists false; reflexivity].
    destruct (check_term e a) as [[|] | x] eqn:E; simpl.
    + exact IH.
    + left; exists false; reflexivity.
    + right. now rewrite (check_term_raises _ _ E).
Qed.

(** The loop returns [True] exactly when every condition holds. *)
Lemma conditions_loop_true_iff (items d : dict) :
  conditions_loop items (VDict d) = Ret true <->
  Forall (condition_holds d) items.
Proof.
  induction items as [| [k e] rest IH].
  - split; intros; [constructor | reflexivity].
  - rewrite conditions_loop_record. split.
    + intros H. destruct (dict_get k d) as [a |] eqn:Ek; [| discriminate].
      destruct (check_term e a) as [[|] | x] eqn:E; simpl in H;
        try discriminate.
      constructor; [| now apply IH].
      exists a; split; assumption.
    + intros H. inversion H as [| ? ? [a [Ha Hs]] Hrest]; subst.
      simpl in Ha, Hs. rewrite Ha. unfold term_satisfied in Hs.
      rewrite Hs; simpl. now apply IH.
Qed.

(** A term with a numeric threshold never raises. *)
Lemma check_term_numeric_threshold (expected_value a : value) :
  numeric_threshold expected_value = true ->
  returns (check_term expected_value a).
Proof.
  unfold numeric_threshold, term_relop, check_term, returns.
  destruct expected_value; try (intros; eexists; reflexivity).
  destruct (dict_get "operator" items) as [op |];
    [| intros; eexists; reflexivity].
  assert (Hrel : forall r, is_number (term_threshold items) = true ->
            exists b, relational r a (term_threshold items) = Ret b).
  { intros r Hn. unfold relational.
    destruct (is_number a) eqn:Ea; [| eexists; reflexivity].
    destruct a; try discriminate; destruct (term_threshold items);
      try discriminate; eexists; reflexivity. }
  destruct op; simpl; try (intros; eexists; reflexivity).
  unfold relop_of_string.
  destruct (String.eqb s ">"); [intros; now apply Hrel |].
  destruct (String.eqb s "<"); [intros; now apply Hrel |].
  destruct (String.eqb s ">="); [intros; now apply Hrel |].
  destruct (String.eqb s "<="); [intros; now apply Hrel |].
  intros _.
  destruct (String.eqb s "=="); [eexists; reflexivity |].
  destruct (String.eqb s "!="); eexists; reflexivity.
Qed.

(** With numeric thresholds, a record with an absent field gives
    [False]. *)
Lemma conditions_loop_absent_false (items d : dict) :
  numeric_thresholds items = true ->
  field_absent d items ->
  conditions_loop items (VDict d) = Ret false.
Proof.
  induction items as [| [k e] rest IH]; intros Hn [key [ev [Hin Habs]]].
  - destruct Hin.
  - rewrite conditions_loop_record.
    unfold numeric_thresholds in Hn; simpl in Hn.
    apply andb_true_iff in Hn as [Hne Hnrest].
    destruct (dict_get k d) as [a |] eqn:Ek; [| reflexivity].
    destruct (check_term_numeric_threshold e a Hne) as [b Hb].
    rewrite Hb; simpl. destruct b; [| reflexivity].
    apply IH; [exact Hnrest |].
    destruct Hin as [Heq | Hin].
    + injection Heq as -> ->. congruence.
    + exists key, ev; split; assumption.
Qed.

(** *** Empty condition set *)

(** C4. Whatever the payload, parseable or not, a topic whose condition
    set is empty (the key is missing, or holds an empty dict) is always
    executed: [should_execute_script] returns [True]. *)
Theorem empty_conditions_always_execute
    (json_loads : string -> option value) (topic_config : dict)
    (payload : string) :
  topic_conditions topic_config = VDict [] ->
  should_execute_script json_loads topic_config payload = Ret true.
Proof.
  intros Hc. unfold should_execute_script. now rewrite Hc.
Qed.

Lemma empty_conditions_always_execute_witness :
  topic_conditions [("script", VStr "/usr/local/bin/h.py")] = VDict [] /\
  should_execute_script sample_json_loads
    [("script", VStr "/usr/local/bin/h.py")] payload_not_json = Ret true.
Proof.
  split; [reflexivity |].
  apply (@empty_conditions_always_execute sample_json_loads
           [("script", VStr "/usr/local/bin/h.py")] payload_not_json).
  reflexivity.
Defined.

(** *** Payloads that are not JSON *)

(** C1, at the failing input.  The rule [{"status": "offline"}] and the
    payload [status=offline], which is not JSON: the payload is kept as a
    string, ['status' in data] is the substring test and succeeds, and
    [data['status']] raises [TypeError] out of [should_execute_script]. *)
Theorem non_json_payload_naming_the_field_raises :
  sample_json_loads payload_status_line = None /\
  should_execute_script sample_json_loads rule_status_offline
    payload_status_line = Raise TypeError.
Proof.
  split; reflexivity.
Qed.

(** The other payloads that are not JSON give [False], as in scenario 4. *)
Lemma non_json_payload_without_the_field :
  should_execute_script sample_json_loads rule_status_offline
    payload_not_json = Ret false.
Proof. reflexivity. Qed.

(** *** Conjunction over the terms *)

(** C3, as stated, fails at this input.  The rule
    [{"temperature": {"operator": ">", "threshold": "30"}, "humidity": 1}]
    and the payload [{"temperature": 35}], which decodes to a record
    without the field [humidity]: the first term compares [35 > "30"] and
    raises [TypeError] before the absent field is looked at, so the result
    is not [False]. *)
Lemma absent_field_behind_raising_term :
  sample_json_loads payload_temperature_35
    = Some (VDict [("temperature", VInt 35)]) /\
  field_absent [("temperature", VInt 35)]
    [ ("temperature", operator_term ">" (VStr "30")); ("humidity", VInt 1) ] /\
  should_execute_script sample_json_loads rule_temperature_text_then_humidity
    payload_temperature_35 = Raise TypeError /\
  should_execute_script sample_json_loads rule_temperature_text_then_humidity
    payload_temperature_35 <> Ret false.
Proof.
  split; [reflexivity |]. split.
  - exists "humidity", (VInt 1). split; [right; left; reflexivity | reflexivity].
  - split; [reflexivity | discriminate].
Qed.

(** C3, amended.  On a payload that decodes to a record,
    [should_execute_script] returns [True] exactly when every condition has
    its field in the record and its term satisfied by the field's value.
    When a field is absent the result is never [True]: it is [False] or the
    [TypeError] of a relational term, and it is [False] when every
    relational term of the condition set has a numeric threshold. *)
Theorem record_conditions_conjunction
    (json_loads : string -> option value) (topic_config items d : dict)
    (payload : string) :
  topic_conditions topic_config = VDict items ->
  json_loads payload = Some (VDict d) ->
  (should_execute_script json_loads topic_config payload = Ret true <->
   Forall (condition_holds d) items) /\
  (field_absent d items ->
   should_execute_script json_loads topic_config payload <> Ret true /\
   (should_execute_script json_loads topic_config payload = Ret false \/
    should_execute_script json_loads topic_config payload = Raise TypeError))
  /\
  (field_absent d items -> numeric_thresholds items = true ->
   should_execute_script json_loads topic_config payload = Ret false).
Proof.
  intros Hc Hd.
  rewrite (should_execute_script_record json_loads _ _ Hc Hd).
  assert (Hnot : field_absent d items ->
                 conditions_loop items (VDict d) <> Ret true).
  { intros [key [ev [Hin Habs]]] Htrue.
    apply conditions_loop_true_iff in Htrue.
    rewrite Forall_forall in Htrue.
    destruct (Htrue _ Hin) as [a [Ha _]]. simpl in Ha. congruence. }
  split; [apply conditions_loop_true_iff |]. split.
  - intros Habs. split; [now apply Hnot |].
    destruct (conditions_loop_record_outcome items d) as [[b Hb] | Hr];
      [| now right].
    left. destruct b; [| exact Hb]. exfalso. now apply (Hnot Habs).
  - intros Habs Hn. now apply conditions_loop_absent_false.
Qed.

Lemma record_conditions_conjunction_witness :
  topic_conditions rule_temperature_above_30
    = VDict [("temperature", operator_term ">" (VInt 30))] /\
  sample_json_loads payload_status_online
    = Some (VDict [("status", VStr "online")]) /\
  should_execute_script sample_json_loads rule_temperature_above_30
    payload_status_online = Ret false.
Proof.
  split; [reflexivity |]. split; [reflexivity |].
  destruct (@record_conditions_conjunction sample_json_loads
              rule_temperature_above_30
              [("temperature", operator_term ">" (VInt 30))]
              [("status", VStr "online")]
              payload_status_online eq_refl eq_refl) as [_ [_ H]].
  apply H; [| reflexivity].
  exists "temperature", (operator_term ">" (VInt 30)).
  split; [left; reflexivity | reflexivity].
Defined.

(** *** Relational operator terms *)

(** An operator term with one of [>], [<], [>=], [<=] is decided by
    [relational]. *)
Lemma check_term_relational (e : dict) (s : string) (op : relop)
    (a : value) :
  dict_get "operator" e = Some (VStr s) ->
  relop_of_string s = Some op ->
  check_term (VDict e) a = relational op a (term_threshold e).
Proof.
  intros He Hs. unfold check_term. rewrite He.
  unfold relop_of_string in Hs. cbn [py_eq].
  destruct (String.eqb s ">"); [now injection Hs as <- |].
  destruct (String.eqb s "<"); [now injection Hs as <- |].
  destruct (String.eqb s ">="); [now injection Hs as <- |].
  destruct (String.eqb s "<="); [now injection Hs as <- | discriminate].
Qed.

Lemma is_number_as_number (v : value) :
  is_number v = true <-> exists x, as_number v = Some x.
Proof.
  destruct v; simpl; split; intros H; eauto; try discriminate;
    destruct H; discriminate.
Qed.

Lemma relational_verdict (op : relop) (a t : value) :
  (is_number a = false -> relational op a t = Ret false) /\
  (is_number a = true -> is_number t = false ->
   relational op a t = Raise TypeError) /\
  (forall x y, as_number a = Some x -> as_number t = Some y ->
   relational op a t = Ret (relop_holds op x y)).
Proof.
  unfold relational. split; [| split].
  - intros ->. reflexivity.
  - intros Ha Ht. rewrite Ha.
    destruct (as_number a); [| reflexivity].
    destruct (as_number t) eqn:Et; [| reflexivity].
    assert (is_number t = true) by (apply is_number_as_number; eauto).
    congruence.
  - intros x y Hx Hy.
    assert (Ha : is_number a = true) by (apply is_number_as_number; eauto).
    now rewrite Ha, Hx, Hy.
Qed.

(** Two integers compare as integers. *)
Lemma number_compare_int (n m : Z) :
  number_compare (NFin n 0) (NFin m 0) = Some (n ?= m)%Z.
Proof.
  unfold number_compare. cbn [Z.min Z.compare Z.sub Z.opp Z.add Z.pow Z.pow_pos].
  simpl. now rewrite !Z.mul_1_r.
Qed.

(** The four relational comparisons of two integers. *)
Lemma relational_int (n m : Z) :
  relational Gt_ (VInt n) (VInt m) = Ret (m <? n)%Z /\
  relational Lt_ (VInt n) (VInt m) = Ret (n <? m)%Z /\
  relational Ge_ (VInt n) (VInt m) = Ret (m <=? n)%Z /\
  relational Le_ (VInt n) (VInt m) = Ret (n <=? m)%Z.
Proof.
  unfold relational, relop_holds. cbn [is_number as_number].
  rewrite number_compare_int.
  destruct (Z.compare_spec n m); repeat split; f_equal; symmetry;
    first [apply Z.ltb_lt; lia | apply Z.ltb_ge; lia
          | apply Z.leb_le; lia | apply Z.leb_gt; lia].
Qed.

(** C2, as stated, fails at this input.  The rule
    [{"temperature": {"operator": ">", "threshold": "30"}}] and the payload
    [{"temperature": 35}]: the field is numeric and the threshold is a
    string, and the comparison [35 > "30"] raises [TypeError] where the
    claim has the term fail silently. *)
Lemma relational_text_threshold_raises :
  sample_json_loads payload_temperature_35
    = Some (VDict [("temperature", VInt 35)]) /\
  should_execute_script sample_json_loads rule_temperature_above_text
    payload_temperature_35 = Raise TypeError /\
  should_execute_script sample_json_loads rule_temperature_above_text
    payload_temperature_35 <> Ret false.
Proof.
  split; [reflexivity |]. split; [reflexivity | discriminate].
Qed.

(** The loop over [pre ++ rest]: the loop over [rest] runs when the one
    over [pre] has let every condition pass, and not otherwise. *)
Lemma conditions_loop_app (pre rest : dict) (data : value) :
  conditions_loop (pre ++ rest) data =
  match conditions_loop pre data with
  | Ret true => conditions_loop rest data
  | r => r
  end.
Proof.
  induction pre as [| [k e] pre IH]; [reflexivity |].
  cbn [app conditions_loop].
  destruct (py_contains data k) as [[|] | x]; cbn [bind negb]; auto.
  destruct (py_getitem data k) as [a | x]; cbn [bind]; auto.
  destruct (check_term e a) as [[|] | x]; cbn [bind]; auto.
Qed.

(** With numeric thresholds the loop on a record returns. *)
Lemma conditions_loop_numeric_returns (items d : dict) :
  numeric_thresholds items = true ->
  returns (conditions_loop items (VDict d)).
Proof.
  induction items as [| [k e] rest IH]; intros Hn.
  - exists true; reflexivity.
  - rewrite conditions_loop_record.
    unfold numeric_thresholds in Hn; simpl in Hn.
    apply andb_true_iff in Hn as [He Hrest].
    destruct (dict_get k d) as [a |]; [| exists false; reflexivity].
    destruct (check_term_numeric_threshold e a He) as [b Hb].
    rewrite Hb; simpl. destruct b; [now apply IH | exists false; reflexivity].
Qed.

(** The result of [should_execute_script] on a record, seen from one
    condition of the set: what the conditions before it give, unless they
    all hold; then the verdict of the term, and after it the conditions
    behind. *)
Lemma should_execute_script_at
    (json_loads : string -> option value) (topic_config pre post d : dict)
    (key : string) (expected_value a : value) (payload : string) :
  topic_conditions topic_config
    = VDict (pre ++ (key, expected_value) :: post) ->
  json_loads payload = Some (VDict d) ->
  dict_get key d = Some a ->
  should_execute_script json_loads topic_config payload =
  match conditions_loop pre (VDict d) with
  | Ret true =>
      ok <- check_term expected_value a ;;
      if ok then conditions_loop post (VDict d) else Ret false
  | r => r
  end.
Proof.
  intros Hc Hd Ha.
  rewrite (should_execute_script_record json_loads _ _ Hc Hd).
  now rewrite conditions_loop_app, conditions_loop_record, Ha.
Qed.

(** C2, amended.  For an operator term with [>], [<], [>=] or [<=] at any
    place in the condition set, its field present in the decoded record:
    - a field value that is not an [int], [float] or [bool] makes the term
      fail without an error, whatever the threshold: the result is what
      the conditions before the term give when one of them raises or
      fails, and [False] otherwise; it is never [True], and it is [False]
      when the conditions before the term have numeric thresholds;
    - a numeric field value against a threshold that is not numeric raises
      [TypeError] when the conditions before the term all hold;
    - a numeric field value against a numeric threshold is compared by
      value: when the conditions before the term all hold, [False] when
      the comparison fails and the verdict of the conditions behind the
      term when it holds;
    - so the term is satisfied only when both are numeric, and for [>]
      exactly when both are numeric and the field value is greater: on
      integers, [n > t]. *)
Theorem relational_term_verdict
    (json_loads : string -> option value)
    (topic_config pre e post d : dict)
    (key s : string) (op : relop) (a : value) (payload : string) :
  topic_conditions topic_config = VDict (pre ++ (key, VDict e) :: post) ->
  dict_get "operator" e = Some (VStr s) ->
  relop_of_string s = Some op ->
  json_loads payload = Some (VDict d) ->
  dict_get key d = Some a ->
  (is_number a = false ->
   should_execute_script json_loads topic_config payload =
     match conditions_loop pre (VDict d) with
     | Ret true => Ret false
     | r => r
     end /\
   should_execute_script json_loads topic_config payload <> Ret true /\
   (numeric_thresholds pre = true ->
    should_execute_script json_loads topic_config payload = Ret false)) /\
  (is_number a = true -> is_number (term_threshold e) = false ->
   should_execute_script json_loads topic_config payload =
     match conditions_loop pre (VDict d) with
     | Ret true => Raise TypeError
     | r => r
     end) /\
  (forall x y, as_number a = Some x ->
     as_number (term_threshold e) = Some y ->
     should_execute_script json_loads topic_config payload =
     match conditions_loop pre (VDict d) with
     | Ret true =>
         if relop_holds op x y then conditions_loop post (VDict d)
         else Ret false
     | r => r
     end) /\
  (term_satisfied (VDict e) a ->
   is_number a = true /\ is_number (term_threshold e) = true) /\
  (term_satisfied (VDict e) a <->
   exists x y, as_number a = Some x /\
     as_number (term_threshold e) = Some y /\ relop_holds op x y = true) /\
  (s = ">" ->
   (term_satisfied (VDict e) a <->
    exists x y, as_number a = Some x /\
      as_number (term_threshold e) = Some y /\
      number_compare x y = Some Gt)) /\
  (forall n m, a = VInt n -> term_threshold e = VInt m -> s = ">" ->
     (term_satisfied (VDict e) a <-> m < n)).
Proof.
  intros Hc He Hs Hd Ha.
  assert (Hint : forall n m, a = VInt n -> term_threshold e = VInt m ->
            s = ">" -> (term_satisfied (VDict e) a <-> m < n)).
  { intros n m -> Hm ->. injection Hs as <-. unfold term_satisfied.
    rewrite (check_term_relational e (VInt n) He eq_refl), Hm.
    destruct (relational_int n m) as [-> _].
    split; [intros H; injection H as H; now apply Z.ltb_lt |].
    intros H. apply Z.ltb_lt in H. now rewrite H. }
  rewrite (@should_execute_script_at json_loads topic_config pre post d key
             (VDict e) a payload Hc Hd Ha).
  unfold term_satisfied.
  rewrite (check_term_relational e a He Hs).
  destruct (relational_verdict op a (term_threshold e)) as [V1 [V2 V3]].
  assert (Hsat : relational op a (term_threshold e) = Ret true <->
            exists x y, as_number a = Some x /\
              as_number (term_threshold e) = Some y /\
              relop_holds op x y = true).
  { split.
    - intros H. destruct (is_number a) eqn:Na;
        [| rewrite (V1 eq_refl) in H; discriminate].
      destruct (is_number (term_threshold e)) eqn:Nt;
        [| rewrite (V2 eq_refl eq_refl) in H; discriminate].
      apply is_number_as_number in Na as [x Hx].
      apply is_number_as_number in Nt as [y Hy].
      exists x, y. rewrite (V3 x y Hx Hy) in H.
      injection H as H. auto.
    - intros [x [y [Hx [Hy Hr]]]]. now rewrite (V3 x y Hx Hy), Hr. }
  split.
  { intros Na. rewrite (V1 Na). cbn [bind].
    split; [reflexivity |]. split.
    - destruct (conditions_loop pre (VDict d)) as [[|] | x]; discriminate.
    - intros Hn. destruct (conditions_loop_numeric_returns pre d Hn)
        as [b ->]. now destruct b. }
  split.
  { intros Na Nt. now rewrite (V2 Na Nt). }
  split.
  { intros x y Hx Hy. rewrite (V3 x y Hx Hy). cbn [bind].
    destruct (relop_holds op x y); reflexivity. }
  split.
  { intros H. apply Hsat in H as [x [y [Hx [Hy _]]]].
    split; apply is_number_as_number; eauto. }
  split; [exact Hsat |].
  split;
    [| intros n m Hn Hm Hgt; rewrite <- (check_term_relational e a He Hs);
       now apply (Hint n m)].
  intros ->. injection Hs as <-. rewrite Hsat.
  split; intros [x [y [Hx [Hy Hr]]]]; exists x, y; repeat split; auto.
  - unfold relop_holds in Hr.
    destruct (number_compare x y) as [[| |] |]; congruence.
  - unfold relop_holds. now rewrite Hr.
Qed.

Lemma relational_term_verdict_witness :
  topic_conditions rule_temperature_above_30
    = VDict [("temperature", operator_term ">" (VInt 30))] /\
  sample_json_loads payload_temperature_text
    = Some (VDict [("temperature", VStr "hot")]) /\
  should_execute_script sample_json_loads rule_temperature_above_30
    payload_temperature_text = Ret false.
Proof.
  split; [reflexivity |]. split; [reflexivity |].
  destruct (@relational_term_verdict sample_json_loads
              rule_temperature_above_30 []
              [("operator", VStr ">"); ("threshold", VInt 30)] []
              [("temperature", VStr "hot")] "temperature" ">" Gt_
              (VStr "hot") payload_temperature_text
              eq_refl eq_refl eq_refl eq_refl eq_refl) as [H _].
  destruct (H eq_refl) as [_ [_ Hf]]. apply Hf. reflexivity.
Defined.

(** *** Literal terms *)

Lemma check_term_literal (expected_value a : value) :
  is_literal_term expected_value = true ->
  check_term expected_value a = Ret (py_eq a expected_value).
Proof.
  unfold is_literal_term, check_term, py_ne, dict_mem.
  destruct expected_value; intros H; rewrite ?negb_involutive; auto.
  destruct (dict_get "operator" items); [discriminate | reflexivity].
Qed.


Lemma py_eq_int (n m : Z) : py_eq (VInt n) (VInt m) = true <-> n = m.
Proof.
  cbn [py_eq as_number]. unfold number_eqb. rewrite number_compare_int.
  destruct (Z.compare_spec n m); split; intros; try discriminate;
    try reflexivity; try assumption; lia.
Qed.




(** *** Terms inside a condition set *)

(** Replacing a term by one with the same verdicts does not change the
    loop. *)
Lemma conditions_loop_congruence (pre post : dict) (key : string)
    (e1 e2 data : value) :
  (forall a, check_term e1 a = check_term e2 a) ->
  conditions_loop (pre ++ (key, e1) :: post) data =
  conditions_loop (pre ++ (key, e2) :: post) data.
Proof.
  intros Heq. induction pre as [| [k e] pre IH]; simpl.
  - destruct (py_contains data key) as [[|] | x]; simpl; auto.
    destruct (py_getitem data key) as [a | x]; simpl; auto.
    now rewrite Heq.
  - destruct (py_contains data k) as [[|] | x]; simpl; auto.
    destruct (py_getitem data k) as [a | x]; simpl; auto.
    destruct (check_term e a) as [[|] | x]; simpl; auto.
Qed.

(** A term that its present field satisfies can be dropped. *)
Lemma conditions_loop_skip (pre post d : dict) (key : string)
    (e a : value) :
  dict_get key d = Some a ->
  check_term e a = Ret true ->
  conditions_loop (pre ++ (key, e) :: post) (VDict d) =
  conditions_loop (pre ++ post) (VDict d).
Proof.
  intros Ha He. induction pre as [| [k e'] pre IH].
  - simpl app. now rewrite conditions_loop_record, Ha, He.
  - simpl app. rewrite !conditions_loop_record.
    destruct (dict_get k d) as [a' |]; auto.
    destruct (check_term e' a') as [[|] | x]; simpl; auto.
Qed.

Lemma should_execute_script_nonempty
    (json_loads : string -> option value) (topic_config pre post : dict)
    (kv : string * value) (payload : string) :
  topic_conditions topic_config = VDict (pre ++ kv :: post) ->
  should_execute_script json_loads topic_config payload =
  conditions_loop (pre ++ kv :: post)
    match json_loads payload with
    | Some v => v
    | None => VStr payload
    end.
Proof.
  intros Hc. unfold should_execute_script. rewrite Hc.
  destruct pre; reflexivity.
Qed.

(** *** Unknown operators *)

Lemma check_term_unknown_operator (e : dict) (s : string) (a : value) :
  dict_get "operator" e = Some (VStr s) ->
  ~ In s known_operators ->
  check_term (VDict e) a = Ret true.
Proof.
  intros He Hs. unfold check_term. rewrite He. cbn [py_eq].
  repeat match goal with
         | |- context [String.eqb s ?o] =>
             destruct (String.eqb_spec s o) as [-> | _];
             [exfalso; apply Hs; simpl; tauto |]
         end.
  reflexivity.
Qed.

(** C9. An operator term whose ['operator'] string is none of [>], [<],
    [>=], [<=], [==], [!=] is satisfied by every value of its field, and
    when the field is present in the decoded record the term can be removed
    from the condition set without changing what [should_execute_script]
    returns or raises. *)
Theorem unknown_operator_is_vacuous
    (json_loads : string -> option value)
    (topic_config topic_config' pre post e d : dict)
    (key s : string) (a : value) (payload : string) :
  topic_conditions topic_config = VDict (pre ++ (key, VDict e) :: post) ->
  topic_conditions topic_config' = VDict (pre ++ post) ->
  dict_get "operator" e = Some (VStr s) ->
  ~ In s known_operators ->
  json_loads payload = Some (VDict d) ->
  dict_get key d = Some a ->
  (forall v, check_term (VDict e) v = Ret true) /\
  should_execute_script json_loads topic_config payload =
  should_execute_script json_loads topic_config' payload.
Proof.
  intros Hc Hc' He Hs Hd Ha.
  split; [intros v; now apply check_term_unknown_operator with s |].
  rewrite (should_execute_script_record json_loads _ _ Hc Hd).
  rewrite (should_execute_script_record json_loads _ _ Hc' Hd).
  apply conditions_loop_skip with a; [exact Ha |].
  now apply check_term_unknown_operator with s.
Qed.

Lemma unknown_operator_is_vacuous_witness :
  ~ In "between" known_operators /\
  should_execute_script sample_json_loads rule_temperature_between
    payload_temperature_20 =
  should_execute_script sample_json_loads rule_no_conditions
    payload_temperature_20 /\
  should_execute_script sample_json_loads rule_temperature_between
    payload_temperature_20 = Ret true.
Proof.
  assert (Hn : ~ In "between" known_operators).
  { simpl. intros [H | [H | [H | [H | [H | [H | []]]]]]]; discriminate. }
  split; [exact Hn |].
  destruct (@unknown_operator_is_vacuous sample_json_loads
              rule_temperature_between rule_no_conditions [] []
              [("operator", VStr "between"); ("threshold", VInt 30)]
              [("temperature", VInt 20)] "temperature" "between" (VInt 20)
              payload_temperature_20
              eq_refl eq_refl eq_refl Hn eq_refl eq_refl) as [_ H].
  split; [exact H | reflexivity].
Defined.

(** *** The two spellings of the threshold *)

Lemma check_term_same_operator_threshold (e1 e2 : dict) (op a : value) :
  dict_get "operator" e1 = Some op ->
  dict_get "operator" e2 = Some op ->
  term_threshold e1 = term_threshold e2 ->
  check_term (VDict e1) a = check_term (VDict e2) a.
Proof.
  intros H1 H2 Ht. unfold check_term. now rewrite H1, H2, Ht.
Qed.

Lemma py_eq_int_eqb (n m : Z) : py_eq (VInt n) (VInt m) = (n =? m)%Z.
Proof.
  destruct (Z.eqb_spec n m) as [Heq | Hne].
  - now apply py_eq_int.
  - destruct (py_eq (VInt n) (VInt m)) eqn:E; [| reflexivity].
    apply py_eq_int in E. contradiction.
Qed.

(** C10. The threshold of an operator term is the value of its
    ['threshold'] key; without that key it is the value of its ['value']
    key, and [None] when both are missing.  The comparison is made against
    that value: with one of [>], [<], [>=], [<=] the verdict of the term is
    the comparison of the field value with it, and on integers the six
    operators give [n > t], [n < t], [n >= t], [n <= t], [n == t] and
    [n != t] for the [t] found under ['value'].  Two operator terms with
    the same operator, one giving [t] under ['threshold'] and the other
    under ['value'], have the same verdict on every field value, and
    exchanging one for the other in a condition set leaves the result of
    [should_execute_script] unchanged on every payload. *)
Theorem threshold_falls_back_to_value
    (json_loads : string -> option value)
    (topic_config1 topic_config2 pre post e1 e2 : dict)
    (key : string) (op t : value) (payload : string) :
  topic_conditions topic_config1 = VDict (pre ++ (key, VDict e1) :: post) ->
  topic_conditions topic_config2 = VDict (pre ++ (key, VDict e2) :: post) ->
  dict_get "operator" e1 = Some op ->
  dict_get "operator" e2 = Some op ->
  dict_get "threshold" e1 = Some t ->
  dict_get "threshold" e2 = None ->
  dict_get "value" e2 = Some t ->
  term_threshold e1 = t /\
  term_threshold e2 = t /\
  (forall e, dict_get "threshold" e = None -> dict_get "value" e = None ->
             term_threshold e = VNone) /\
  (forall a, check_term (VDict e1) a = check_term (VDict e2) a) /\
  should_execute_script json_loads topic_config1 payload =
  should_execute_script json_loads topic_config2 payload /\
  (forall s r a, op = VStr s -> relop_of_string s = Some r ->
     check_term (VDict e2) a = relational r a t /\
     forall x y, as_number a = Some x -> as_number t = Some y ->
       check_term (VDict e2) a = Ret (relop_holds r x y)) /\
  (forall n m, t = VInt m ->
     (op = VStr ">" -> check_term (VDict e2) (VInt n) = Ret (m <? n)) /\
     (op = VStr "<" -> check_term (VDict e2) (VInt n) = Ret (n <? m)) /\
     (op = VStr ">=" -> check_term (VDict e2) (VInt n) = Ret (m <=? n)) /\
     (op = VStr "<=" -> check_term (VDict e2) (VInt n) = Ret (n <=? m)) /\
     (op = VStr "==" -> check_term (VDict e2) (VInt n) = Ret (n =? m)) /\
     (op = VStr "!=" ->
      check_term (VDict e2) (VInt n) = Ret (negb (n =? m)))).
Proof.
  intros Hc1 Hc2 Ho1 Ho2 Ht1 Ht2 Hv2.
  assert (T1 : term_threshold e1 = t)
    by (unfold term_threshold; now rewrite Ht1).
  assert (T2 : term_threshold e2 = t)
    by (unfold term_threshold; now rewrite Ht2, Hv2).
  assert (Hsame : forall a, check_term (VDict e1) a = check_term (VDict e2) a).
  { intros a. apply check_term_same_operator_threshold with op; congruence. }
  assert (Hrel : forall s r a, op = VStr s -> relop_of_string s = Some r ->
            check_term (VDict e2) a = relational r a t).
  { intros s r a -> Hr. rewrite <- T2.
    now apply check_term_relational with s. }
  split; [exact T1 |]. split; [exact T2 |]. split.
  { intros e Ht Hv. unfold term_threshold. now rewrite Ht, Hv. }
  split; [exact Hsame |]. split.
  { rewrite (should_execute_script_nonempty json_loads _ _ _ _ payload Hc1).
    rewrite (should_execute_script_nonempty json_loads _ _ _ _ payload Hc2).
    now apply conditions_loop_congruence. }
  split.
  { intros s r a Hop Hr. split; [now apply Hrel with s |].
    intros x y Hx Hy. rewrite (Hrel s r a Hop Hr).
    destruct (relational_verdict r a t) as [_ [_ V3]]. now apply V3. }
  intros n m ->.
  destruct (relational_int n m) as [Hgt [Hlt [Hge Hle]]].
  repeat split; intros Hop.
  - now rewrite (Hrel ">" Gt_ (VInt n) Hop eq_refl).
  - now rewrite (Hrel "<" Lt_ (VInt n) Hop eq_refl).
  - now rewrite (Hrel ">=" Ge_ (VInt n) Hop eq_refl).
  - now rewrite (Hrel "<=" Le_ (VInt n) Hop eq_refl).
  - unfold check_term. rewrite Ho2, Hop, T2.
    transitivity (Ret (negb (py_ne (VInt n) (VInt m)))); [reflexivity |].
    unfold py_ne. now rewrite negb_involutive, py_eq_int_eqb.
  - unfold check_term. rewrite Ho2, Hop, T2.
    transitivity (Ret (negb (py_eq (VInt n) (VInt m)))); [reflexivity |].
    now rewrite py_eq_int_eqb.
Qed.

Lemma threshold_falls_back_to_value_witness :
  should_execute_script sample_json_loads rule_temperature_above_30
    payload_temperature_32_5 =
  should_execute_script sample_json_loads rule_temperature_above_30_value
    payload_temperature_32_5 /\
  check_term (operator_value_term ">" (VInt 30)) (VInt 35) = Ret true /\
  check_term (operator_value_term ">" (VInt 30)) (VInt 20) = Ret false.
Proof.
  destruct (@threshold_falls_back_to_value sample_json_loads
              rule_temperature_above_30 rule_temperature_above_30_value
              [] []
              [("operator", VStr ">"); ("threshold", VInt 30)]
              [("operator", VStr ">"); ("value", VInt 30)]
              "temperature" (VStr ">") (VInt 30) payload_temperature_32_5
              eq_refl eq_refl eq_refl eq_refl eq_refl eq_refl eq_refl)
    as [_ [_ [_ [_ [H [_ Hint]]]]]].
  split; [exact H |].
  split.
  - destruct (Hint 35 30 eq_refl) as [Hgt _]. exact (Hgt eq_refl).
  - destruct (Hint 20 30 eq_refl) as [Hgt _]. exact (Hgt eq_refl).
Defined.

End EvaluatorClaims.

(** ** Claims about the configuration merge *)

Module ConfigClaims.
Import PyValue Config DictFacts Samples.

Lemma merge_configs_nil (default : dict) : merge_configs default [] = default.
Proof. reflexivity. Qed.

Lemma merge_configs_cons (default rest : dict) (key : string) (v : value) :
  merge_configs default ((key, v) :: rest) =
  merge_configs (merge_step default key v) rest.
Proof.
  unfold merge_configs, merge_step. simpl.
  destruct (dict_get key default) as [[] |]; destruct v; reflexivity.
Qed.

(** What one iteration leaves under the key it assigns, and under the
    others. *)
Lemma merge_step_same (default : dict) (key : string) (v : value) :
  dict_get key (merge_step default key v) =
  merged_entry default [(key, v)] key.
Proof.
  unfold merge_step, merged_entry. simpl. rewrite String.eqb_refl.
  destruct (dict_get key default) as [[] |]; destruct v;
    apply dict_get_set_same.
Qed.

Lemma merge_step_other (default : dict) (key key' : string) (v : value) :
  key' <> key ->
  dict_get key' (merge_step default key v) = dict_get key' default.
Proof.
  intros Hne. unfold merge_step.
  destruct (dict_get key default) as [[] |]; destruct v;
    now apply dict_get_set_other.
Qed.

Lemma merge_configs_lookup (user default : dict) (key : string) :
  NoDup (dict_keys user) ->
  dict_get key (merge_configs default user) = merged_entry default user key.
Proof.
  revert default.
  induction user as [| [k v] rest IH]; intros default Hnd.
  - reflexivity.
  - rewrite merge_configs_cons.
    inversion Hnd as [| ? ? Hnotin Hrest]; subst.
    rewrite (IH _ Hrest).
    destruct (String.eqb_spec key k) as [-> | Hne].
    + unfold merged_entry at 1.
      rewrite (dict_get_absent k rest Hnotin), merge_step_same.
      unfold merged_entry. simpl. now rewrite String.eqb_refl.
    + unfold merged_entry. simpl.
      destruct (String.eqb_spec key k) as [? | _]; [contradiction |].
      now rewrite (merge_step_other default v Hne).
Qed.

(** C8. [merge_configs(default, user)] is the key-by-key merge of [user]
    over [default]: looking a key up in the result gives the default's
    value when [user] does not have the key, the recursive merge of the two
    values when both are records, and the value from [user] otherwise. *)
Theorem merge_configs_key_by_key (default user : dict) :
  NoDup (dict_keys user) ->
  (forall key,
     dict_get key (merge_configs default user) =
     merged_entry default user key) /\
  (forall key, dict_get key user = None ->
     dict_get key (merge_configs default user) = dict_get key default) /\
  (forall key sub u,
     dict_get key default = Some (VDict sub) ->
     dict_get key user = Some (VDict u) ->
     dict_get key (merge_configs default user) =
     Some (VDict (merge_configs sub u))) /\
  (forall key v,
     dict_get key user = Some v ->
     is_dict v = false \/
     (forall sub, dict_get key default <> Some (VDict sub)) ->
     dict_get key (merge_configs default user) = Some v).
Proof.
  intros Hnd.
  split; [intros key; now apply merge_configs_lookup |].
  split; [| split].
  - intros key Hu. rewrite (merge_configs_lookup user default key Hnd).
    unfold merged_entry. now rewrite Hu.
  - intros key sub u Hd Hu. rewrite (merge_configs_lookup user default key Hnd).
    unfold merged_entry. now rewrite Hu, Hd.
  - intros key v Hu Hcase. rewrite (merge_configs_lookup user default key Hnd).
    unfold merged_entry. rewrite Hu.
    destruct (dict_get key default) as [[] |]; try reflexivity.
    destruct v; try reflexivity.
    destruct Hcase as [Hv | Hd]; [discriminate |].
    exfalso. now apply (Hd items).
Qed.

Lemma merge_configs_key_by_key_witness :
  NoDup (dict_keys user_config) /\
  dict_get "mqtt" (merge_configs DEFAULT_CONFIG user_config) =
    Some (VDict [ ("broker", VStr "broker.example");
                  ("port", VInt 8883);
                  ("username", VNone);
                  ("password", VNone);
                  ("client_id", VStr "mqtt-service");
                  ("keepalive", VInt 60) ]) /\
  dict_get "logging" (merge_configs DEFAULT_CONFIG user_config) =
    Some (VStr "off") /\
  dict_get "topics" (merge_configs DEFAULT_CONFIG user_config) =
    dict_get "topics" DEFAULT_CONFIG.
Proof.
  assert (Hnd : NoDup (dict_keys user_config)).
  { repeat constructor; simpl; intuition discriminate. }
  split; [exact Hnd |].
  destruct (@merge_configs_key_by_key DEFAULT_CONFIG user_config Hnd)
    as [Hall [Hdef _]].
  split; [rewrite Hall; reflexivity |].
  split; [rewrite Hall; reflexivity |].
  apply Hdef. reflexivity.
Defined.

End ConfigClaims.

(** ** Claims about the dispatcher *)

Module DispatcherClaims.
Import Dispatcher Samples.
Local Open Scope list_scope.

Lemma log_outcome_run_calls (script_path : string) (o : run_outcome)
    (st : state) :
  run_calls (log_outcome script_path o st) = run_calls st.
Proof.
  destruct o as [rc out err | | msg]; simpl; try reflexivity.
  destruct (rc =? 0)%Z; [destruct (nonempty out) | destruct (nonempty err)];
    reflexivity.
Qed.

Lemma execute_script_existing (w : world)
    (script_path topic payload : string) (st : state) :
  path_exists w script_path = true ->
  execute_script w script_path topic payload st =
  log_outcome script_path
    (subprocess_run w (handler_call w script_path topic payload))
    (record_run (handler_call w script_path topic payload) st).
Proof.
  intros He. unfold execute_script. now rewrite He.
Qed.

(** A handler that runs into the timeout: one call with the 30 second
    bound, one error record, and [execute_script] returns. *)
Lemma timed_out_handler_is_logged (w : world)
    (script_path topic payload : string) (st : state) :
  path_exists w script_path = true ->
  subprocess_run w (handler_call w script_path topic payload)
    = TimeoutExpired ->
  timeout (handler_call w script_path topic payload) = 30%Z /\
  execute_script w script_path topic payload st =
  {| log := log st ++ [(ERROR, ("Script " ++ script_path ++ " timed out")%string)];
     run_calls := run_calls st
                    ++ [handler_call w script_path topic payload] |}.
Proof.
  intros He Ht. split; [reflexivity |].
  rewrite (execute_script_existing w script_path topic payload st He), Ht.
  reflexivity.
Qed.

(** C7, as stated, fails at this input.  The handler
    [/usr/local/bin/handle_temperature.py] is on disk without the
    executable permission: [os.path.exists] is true, so [execute_script]
    calls [subprocess.run] on it through the interpreter, where the claim
    has no handler invocation. *)
Lemma non_executable_handler_is_run :
  path_executable world_handler_not_executable
    "/usr/local/bin/handle_temperature.py" = false /\
  run_calls
    (execute_script world_handler_not_executable
       "/usr/local/bin/handle_temperature.py" "sensor/temperature"
       payload_temperature_35 initial)
  = [ handler_call world_handler_not_executable
        "/usr/local/bin/handle_temperature.py" "sensor/temperature"
        payload_temperature_35 ] /\
  run_calls
    (execute_script world_handler_not_executable
       "/usr/local/bin/handle_temperature.py" "sensor/temperature"
       payload_temperature_35 initial)
  <> run_calls initial.
Proof.
  split; [reflexivity |]. split; [reflexivity | discriminate].
Qed.

Lemma log_outcome_log (script_path : string) (o : run_outcome)
    (st : state) :
  log (log_outcome script_path o st) =
  log st ++
  match o with
  | Completed returncode stdout stderr =>
      if (returncode =? 0)%Z then
        (INFO, ("Script " ++ script_path ++ " executed successfully")%string)
        :: (if nonempty stdout
            then [(DEBUG, ("Script output: " ++ stdout)%string)]
            else [])
      else
        (ERROR, ("Script " ++ script_path ++ " failed with return code "
                 ++ str_of_int returncode)%string)
        :: (if nonempty stderr
            then [(ERROR, ("Script error: " ++ stderr)%string)]
            else [])
  | TimeoutExpired =>
      [(ERROR, ("Script " ++ script_path ++ " timed out")%string)]
  | OtherException message =>
      [(ERROR, ("Error executing script " ++ script_path ++ ": "
                ++ message)%string)]
  end.
Proof.
  unfold log_outcome.
  destruct o as [rc out err | | msg]; [| reflexivity | reflexivity].
  destruct (rc =? 0)%Z; [destruct (nonempty out) | destruct (nonempty err)];
    cbn [log logger]; rewrite <- ?app_assoc; reflexivity.
Qed.

(** C7, amended.  When the handler path does not exist, [execute_script]
    logs the one error record [Script not found], calls [subprocess.run]
    not at all, and returns.  When the path exists, it calls
    [subprocess.run] once, on the interpreter and the script with the topic
    and payload in the environment, whatever the executable permission of
    the file, and logs the outcome of that call: on exit status 0 the
    record [executed successfully] and, if there is any, the output; on
    another status an error with the status and, if there is any, the
    error output; on the timeout and on any other exception one error
    record. *)
Theorem missing_handler_is_skipped (w : world)
    (script_path topic payload : string) (st : state) :
  (path_exists w script_path = false ->
   execute_script w script_path topic payload st =
   {| log := log st ++ [(ERROR, ("Script not found: " ++ script_path)%string)];
      run_calls := run_calls st |}) /\
  (path_exists w script_path = true ->
   run_calls (execute_script w script_path topic payload st) =
   run_calls st ++ [handler_call w script_path topic payload] /\
   log (execute_script w script_path topic payload st) =
   log st ++
   match subprocess_run w (handler_call w script_path topic payload) with
   | Completed returncode stdout stderr =>
       if (returncode =? 0)%Z then
         (INFO, ("Script " ++ script_path ++ " executed successfully")%string)
         :: (if nonempty stdout
             then [(DEBUG, ("Script output: " ++ stdout)%string)]
             else [])
       else
         (ERROR, ("Script " ++ script_path ++ " failed with return code "
                  ++ str_of_int returncode)%string)
         :: (if nonempty stderr
             then [(ERROR, ("Script error: " ++ stderr)%string)]
             else [])
   | TimeoutExpired =>
       [(ERROR, ("Script " ++ script_path ++ " timed out")%string)]
   | OtherException message =>
       [(ERROR, ("Error executing script " ++ script_path ++ ": "
                 ++ message)%string)]
   end).
Proof.
  split.
  - intros He. unfold execute_script. now rewrite He.
  - intros He.
    rewrite (execute_script_existing w script_path topic payload st He).
    split; [apply log_outcome_run_calls |].
    now rewrite log_outcome_log.
Qed.

Lemma missing_handler_is_skipped_witness :
  path_exists world_handler_not_executable "/usr/local/bin/missing.py"
    = false /\
  execute_script world_handler_not_executable "/usr/local/bin/missing.py"
    "sensor/temperature" payload_temperature_35 initial =
  {| log := [(ERROR, "Script not found: /usr/local/bin/missing.py"%string)];
     run_calls := [] |} /\
  path_exists world_handler_not_executable
    "/usr/local/bin/handle_temperature.py" = true /\
  log (execute_script world_handler_not_executable
         "/usr/local/bin/handle_temperature.py" "sensor/temperature"
         payload_temperature_35 initial) =
  [(INFO, "Script /usr/local/bin/handle_temperature.py executed successfully"%string)].
Proof.
  split; [reflexivity |].
  destruct (@missing_handler_is_skipped world_handler_not_executable
              "/usr/local/bin/missing.py" "sensor/temperature"
              payload_temperature_35 initial) as [H _].
  split; [rewrite (H eq_refl); reflexivity |].
  split; [reflexivity |].
  destruct (@missing_handler_is_skipped world_handler_not_executable
              "/usr/local/bin/handle_temperature.py" "sensor/temperature"
              payload_temperature_35 initial) as [_ H'].
  destruct (H' eq_refl) as [_ Hlog]. rewrite Hlog. reflexivity.
Defined.

End DispatcherClaims.

(** ** The end-to-end scenarios *)

Module Scenarios.
Import PyValue Evaluator Samples.

(** Scenario 1: [{"temperature": 32.5}] against [> 30] matches. *)
Example scenario_temperature_above :
  should_execute_script sample_json_loads rule_temperature_above_30
    payload_temperature_32_5 = Ret true.
Proof. reflexivity. Qed.

(** Scenario 2: [{"temperature": 20}] against [> 30] does not. *)
Example scenario_temperature_below :
  should_execute_script sample_json_loads rule_temperature_above_30
    payload_temperature_20 = Ret false.
Proof. reflexivity. Qed.

(** Scenario 3: the status rule matches [offline] and not [online]. *)
Example scenario_status :
  should_execute_script sample_json_loads rule_status_offline
    payload_status_offline_d1 = Ret true /\
  should_execute_script sample_json_loads rule_status_offline
    payload_status_online = Ret false.
Proof. split; reflexivity. Qed.

(** Scenario 4: the payload [not-json] against a non-empty condition set
    gives [False]. *)
Example scenario_not_json :
  should_execute_script sample_json_loads rule_status_offline
    payload_not_json = Ret false.
Proof. reflexivity. Qed.

(** Numbers compare by value: the integer [1] matches the literal [1], and
    [25.0] equals [25]. *)
Example literal_numbers_by_value :
  should_execute_script sample_json_loads rule_status_one
    payload_status_one = Ret true /\
  py_eq (VFloat float_25) (VInt 25) = true.
Proof. split; reflexivity. Qed.

End Scenarios.

(** ** More about the evaluator *)

Module EvaluatorExtras.
Import PyValue Evaluator DictFacts EvaluatorFacts EvaluatorClaims.
Import Samples MoreSamples.
Local Open Scope list_scope.

(** With numeric thresholds the loop on a record is the conjunction of the
    verdicts of its conditions. *)
Lemma conditions_loop_verdicts (items d : dict) :
  numeric_thresholds items = true ->
  conditions_loop items (VDict d) = Ret (forallb (condition_verdict d) items).
Proof.
  induction items as [| [k e] rest IH]; intros Hn; [reflexivity |].
  unfold numeric_thresholds in Hn; simpl in Hn.
  apply andb_true_iff in Hn as [He Hrest].
  rewrite conditions_loop_record. simpl forallb.
  unfold condition_verdict at 1; simpl fst; simpl snd.
  destruct (dict_get k d) as [a |]; [| reflexivity].
  destruct (check_term_numeric_threshold e a He) as [b Hb].
  rewrite Hb; simpl. destruct b; [now apply IH | reflexivity].
Qed.

Lemma forallb_permutation {A : Type} (f : A -> bool) (l l' : list A) :
  Permutation l l' -> forallb f l = forallb f l'.
Proof.
  intros H.
  induction H as [| x l l' _ IH | x y l | l l' l'' _ IH1 _ IH2]; simpl.
  - reflexivity.
  - now rewrite IH.
  - destruct (f x), (f y); reflexivity.
  - congruence.
Qed.

(** X1. A payload that is not JSON, against a non-empty condition set:
    the first key alone decides.  If it occurs in the payload text the
    call raises [TypeError], otherwise it returns [False]; it never
    returns [True], whatever the terms are. *)
Theorem text_payload_first_key_decides
    (json_loads : string -> option value) (topic_config rest : dict)
    (key : string) (expected_value : value) (payload : string) :
  topic_conditions topic_config = VDict ((key, expected_value) :: rest) ->
  json_loads payload = None ->
  should_execute_script json_loads topic_config payload =
    (if str_contains key payload then Raise TypeError else Ret false) /\
  should_execute_script json_loads topic_config payload <> Ret true.
Proof.
  intros Hc Hd.
  rewrite (should_execute_script_text json_loads topic_config payload Hc Hd).
  split; [reflexivity |]. destruct (str_contains key payload); discriminate.
Qed.

Lemma text_payload_first_key_decides_witness :
  should_execute_script sample_json_loads rule_status_offline
    payload_not_json = Ret false /\
  should_execute_script sample_json_loads rule_status_offline
    payload_status_line = Raise TypeError.
Proof.
  split.
  - destruct (@text_payload_first_key_decides sample_json_loads
                rule_status_offline [] "status" (VStr "offline")
                payload_not_json eq_refl eq_refl) as [H _].
    rewrite H. reflexivity.
  - destruct (@text_payload_first_key_decides sample_json_loads
                rule_status_offline [] "status" (VStr "offline")
                payload_status_line eq_refl eq_refl) as [H _].
    rewrite H. reflexivity.
Defined.

(** X2. A payload that decodes to [null], a boolean or a number, against a
    non-empty condition set: [key not in data] raises [TypeError]. *)
Theorem scalar_payload_raises
    (json_loads : string -> option value) (topic_config rest : dict)
    (kv : string * value) (v : value) (payload : string) :
  topic_conditions topic_config = VDict (kv :: rest) ->
  json_loads payload = Some v ->
  v = VNone \/ is_number v = true ->
  should_execute_script json_loads topic_config payload = Raise TypeError.
Proof.
  intros Hc Hd Hv. unfold should_execute_script. rewrite Hc, Hd.
  destruct kv as [k e]. cbn [truthy negb py_items bind conditions_loop].
  destruct Hv as [-> | Hn]; [reflexivity |].
  destruct v; try discriminate; reflexivity.
Qed.

Lemma scalar_payload_raises_witness :
  should_execute_script json_loads_scalar rule_status_offline "42"
    = Raise TypeError /\
  should_execute_script json_loads_scalar rule_status_offline "null"
    = Raise TypeError.
Proof.
  split.
  - apply (@scalar_payload_raises json_loads_scalar rule_status_offline []
             ("status", VStr "offline") (VInt 42) "42" eq_refl eq_refl).
    right; reflexivity.
  - apply (@scalar_payload_raises json_loads_scalar rule_status_offline []
             ("status", VStr "offline") VNone "null" eq_refl eq_refl).
    left; reflexivity.
Defined.

(** X3. A payload that decodes to a JSON string or a JSON array, against a
    non-empty condition set: the first key alone decides.  [TypeError]
    when the key occurs in the string, or equals an element of the array;
    [False] otherwise. *)
Theorem string_or_array_payload_first_key_decides
    (json_loads : string -> option value) (topic_config rest : dict)
    (key : string) (expected_value : value) (payload : string) :
  topic_conditions topic_config = VDict ((key, expected_value) :: rest) ->
  (forall s, json_loads payload = Some (VStr s) ->
     should_execute_script json_loads topic_config payload =
     if str_contains key s then Raise TypeError else Ret false) /\
  (forall xs, json_loads payload = Some (VList xs) ->
     should_execute_script json_loads topic_config payload =
     if existsb (fun x => py_eq x (VStr key)) xs
     then Raise TypeError else Ret false).
Proof.
  intros Hc. split.
  - intros s Hd. unfold should_execute_script. rewrite Hc, Hd.
    cbn [truthy negb py_items bind]. apply conditions_loop_text.
  - intros xs Hd. unfold should_execute_script. rewrite Hc, Hd.
    cbn [truthy negb py_items bind conditions_loop py_contains].
    destruct (existsb (fun x => py_eq x (VStr key)) xs); reflexivity.
Qed.

Lemma string_or_array_payload_first_key_decides_witness :
  should_execute_script json_loads_scalar rule_status_offline
    ("[" ++ jstr "status" ++ "]")%string = Raise TypeError.
Proof.
  destruct (@string_or_array_payload_first_key_decides json_loads_scalar
              rule_status_offline [] "status" (VStr "offline")
              ("[" ++ jstr "status" ++ "]")%string eq_refl) as [_ H].
  rewrite (H [VStr "status"] eq_refl). reflexivity.
Defined.

(** When the decoder returns, or raises what is caught, the two
    definitions agree. *)
Lemma should_execute_script_decoding_caught
    (json_loads : string -> Decoding.decoding) (topic_config : dict)
    (payload : string) :
  (forall exception, json_loads payload <> Decoding.DecoderRaises exception) ->
  Decoding.should_execute_script_decoding json_loads topic_config payload =
  Decoding.Evaluated
    (should_execute_script (Decoding.caught json_loads) topic_config payload).
Proof.
  intros Hn.
  unfold Decoding.should_execute_script_decoding, should_execute_script,
    Decoding.caught.
  destruct (negb (truthy (topic_conditions topic_config))); [reflexivity |].
  destruct (json_loads payload) as [v | | x]; try reflexivity.
  exfalso. now apply (Hn x).
Qed.

(** X4. A ['conditions'] value that is not a dict.  When it is falsy
    ([None], [False], [0], [0.0], the empty string, the empty list) the
    topic is always executed, and the payload is not decoded.  When it is
    truthy the payload is decoded first: an exception of [json.loads]
    other than [JSONDecodeError] leaves the function, and otherwise
    [conditions.items()] raises [AttributeError].  It never gives
    [False]. *)
Theorem non_dict_conditions
    (json_loads : string -> Decoding.decoding) (topic_config : dict)
    (payload : string) :
  is_dict (topic_conditions topic_config) = false ->
  Decoding.should_execute_script_decoding json_loads topic_config payload =
  if truthy (topic_conditions topic_config) then
    match json_loads payload with
    | Decoding.DecoderRaises exception => Decoding.DecoderException exception
    | _ => Decoding.Evaluated (Raise AttributeError)
    end
  else Decoding.Evaluated (Ret true).
Proof.
  intros Hd. unfold Decoding.should_execute_script_decoding.
  destruct (truthy (topic_conditions topic_config)); [| reflexivity].
  cbn [negb].
  destruct (json_loads payload) as [v | | x];
    destruct (topic_conditions topic_config); try discriminate; reflexivity.
Qed.

Lemma non_dict_conditions_witness :
  Decoding.should_execute_script_decoding Decoding.json_loads_with_limit
    [("script", VStr "/usr/local/bin/h.py"); ("conditions", VNone)]
    Decoding.payload_5000_digits = Decoding.Evaluated (Ret true) /\
  Decoding.should_execute_script_decoding Decoding.json_loads_with_limit
    [("script", VStr "/usr/local/bin/h.py");
     ("conditions", VList [VStr "status"])]
    payload_status_online = Decoding.Evaluated (Raise AttributeError) /\
  Decoding.should_execute_script_decoding Decoding.json_loads_with_limit
    [("script", VStr "/usr/local/bin/h.py");
     ("conditions", VList [VStr "status"])]
    Decoding.payload_5000_digits = Decoding.DecoderException "ValueError".
Proof.
  split; [| split].
  - rewrite (@non_dict_conditions Decoding.json_loads_with_limit
               [("script", VStr "/usr/local/bin/h.py"); ("conditions", VNone)]
               Decoding.payload_5000_digits eq_refl).
    reflexivity.
  - rewrite (@non_dict_conditions Decoding.json_loads_with_limit
               [("script", VStr "/usr/local/bin/h.py");
                ("conditions", VList [VStr "status"])]
               payload_status_online eq_refl).
    reflexivity.
  - rewrite (@non_dict_conditions Decoding.json_loads_with_limit
               [("script", VStr "/usr/local/bin/h.py");
                ("conditions", VList [VStr "status"])]
               Decoding.payload_5000_digits eq_refl).
    vm_compute. reflexivity.
Defined.

(** X5. On a payload that decodes to a record, a condition set whose
    relational terms all have numeric thresholds never raises, its result
    is the conjunction of the verdicts of its conditions, and the order of
    the conditions does not matter. *)
Theorem numeric_thresholds_order_irrelevant
    (json_loads : string -> option value)
    (topic_config topic_config' items items' d : dict) (payload : string) :
  topic_conditions topic_config = VDict items ->
  topic_conditions topic_config' = VDict items' ->
  Permutation items items' ->
  numeric_thresholds items = true ->
  json_loads payload = Some (VDict d) ->
  should_execute_script json_loads topic_config payload =
    Ret (forallb (condition_verdict d) items) /\
  should_execute_script json_loads topic_config' payload =
    should_execute_script json_loads topic_config payload.
Proof.
  intros Hc Hc' Hp Hn Hd.
  assert (Hn' : numeric_thresholds items' = true).
  { unfold numeric_thresholds in *.
    now rewrite <- (forallb_permutation _ Hp). }
  rewrite (should_execute_script_record json_loads _ _ Hc Hd).
  rewrite (should_execute_script_record json_loads _ _ Hc' Hd).
  rewrite (conditions_loop_verdicts items d Hn).
  rewrite (conditions_loop_verdicts items' d Hn').
  split; [reflexivity |].
  now rewrite (forallb_permutation (condition_verdict d) Hp).
Qed.

Lemma numeric_thresholds_order_irrelevant_witness :
  should_execute_script sample_json_loads
    (rule "/usr/local/bin/h.py"
       [("status", VStr "offline"); ("device_id", VStr "d1")])
    payload_status_offline_d1 =
  should_execute_script sample_json_loads
    (rule "/usr/local/bin/h.py"
       [("device_id", VStr "d1"); ("status", VStr "offline")])
    payload_status_offline_d1.
Proof.
  destruct (@numeric_thresholds_order_irrelevant sample_json_loads
              (rule "/usr/local/bin/h.py"
                 [("device_id", VStr "d1"); ("status", VStr "offline")])
              (rule "/usr/local/bin/h.py"
                 [("status", VStr "offline"); ("device_id", VStr "d1")])
              [("device_id", VStr "d1"); ("status", VStr "offline")]
              [("status", VStr "offline"); ("device_id", VStr "d1")]
              [("status", VStr "offline"); ("device_id", VStr "d1")]
              payload_status_offline_d1
              eq_refl eq_refl (perm_swap _ _ _) eq_refl eq_refl) as [_ H].
  exact H.
Defined.

(** Without that, the order shows: the same two conditions give
    [TypeError] one way round and [False] the other. *)
Example order_matters_with_text_threshold :
  should_execute_script sample_json_loads
    (rule "/usr/local/bin/h.py"
       [("temperature", operator_term ">" (VStr "30")); ("humidity", VInt 1)])
    payload_temperature_35 = Raise TypeError /\
  should_execute_script sample_json_loads
    (rule "/usr/local/bin/h.py"
       [("humidity", VInt 1); ("temperature", operator_term ">" (VStr "30"))])
    payload_temperature_35 = Ret false.
Proof. split; reflexivity. Qed.

(** X6. A message that satisfies a condition set satisfies every
    condition set made of some of its conditions, in any order: removing
    conditions from a rule never stops a message from matching. *)
Theorem matching_survives_fewer_conditions
    (json_loads : string -> option value)
    (topic_config topic_config' items items' d : dict) (payload : string) :
  topic_conditions topic_config = VDict items ->
  topic_conditions topic_config' = VDict items' ->
  incl items' items ->
  json_loads payload = Some (VDict d) ->
  should_execute_script json_loads topic_config payload = Ret true ->
  should_execute_script json_loads topic_config' payload = Ret true.
Proof.
  intros Hc Hc' Hi Hd.
  rewrite (should_execute_script_record json_loads _ _ Hc Hd).
  rewrite (should_execute_script_record json_loads _ _ Hc' Hd).
  rewrite !conditions_loop_true_iff, !Forall_forall.
  intros H kv Hin. apply H, Hi, Hin.
Qed.

Lemma matching_survives_fewer_conditions_witness :
  should_execute_script sample_json_loads rule_status_offline
    payload_status_offline_d1 = Ret true.
Proof.
  apply (@matching_survives_fewer_conditions sample_json_loads
           (rule "/usr/local/bin/h.py"
              [("device_id", VStr "d1"); ("status", VStr "offline")])
           rule_status_offline
           [("device_id", VStr "d1"); ("status", VStr "offline")]
           [("status", VStr "offline")]
           [("status", VStr "offline"); ("device_id", VStr "d1")]
           payload_status_offline_d1 eq_refl eq_refl).
  - intros kv [<- | []]. right; left; reflexivity.
  - reflexivity.
  - reflexivity.
Defined.

(** X7. The operators [==] and [!=] have no type guard and never raise:
    on a record that has the field, a rule with the single term
    [{operator: "==", threshold: t}] returns whether the field's value
    equals [t], and the rule with [!=] returns the opposite, so exactly one
    of the two matches. *)
Theorem equality_operators_complementary
    (json_loads : string -> option value)
    (topic_config_eq topic_config_ne e_eq e_ne d : dict)
    (key : string) (a : value) (payload : string) :
  topic_conditions topic_config_eq = VDict [(key, VDict e_eq)] ->
  topic_conditions topic_config_ne = VDict [(key, VDict e_ne)] ->
  dict_get "operator" e_eq = Some (VStr "==") ->
  dict_get "operator" e_ne = Some (VStr "!=") ->
  term_threshold e_eq = term_threshold e_ne ->
  json_loads payload = Some (VDict d) ->
  dict_get key d = Some a ->
  should_execute_script json_loads topic_config_eq payload =
    Ret (py_eq a (term_threshold e_eq)) /\
  should_execute_script json_loads topic_config_ne payload =
    Ret (negb (py_eq a (term_threshold e_eq))).
Proof.
  intros Hc Hc' Ho Ho' Ht Hd Ha.
  rewrite (should_execute_script_record json_loads _ _ Hc Hd).
  rewrite (should_execute_script_record json_loads _ _ Hc' Hd).
  rewrite !conditions_loop_record, Ha.
  unfold check_term. rewrite Ho, Ho', <- Ht. cbn [py_eq String.eqb].
  unfold py_ne. rewrite negb_involutive.
  split; simpl.
  - destruct (py_eq a (term_threshold e_eq)); reflexivity.
  - destruct (py_eq a (term_threshold e_eq)); reflexivity.
Qed.

Lemma equality_operators_complementary_witness :
  should_execute_script sample_json_loads
    (rule "/usr/local/bin/h.py" [("temperature", operator_term "==" (VStr "35"))])
    payload_temperature_35 = Ret false /\
  should_execute_script sample_json_loads
    (rule "/usr/local/bin/h.py" [("temperature", operator_term "!=" (VStr "35"))])
    payload_temperature_35 = Ret true.
Proof.
  destruct (@equality_operators_complementary sample_json_loads
              (rule "/usr/local/bin/h.py"
                 [("temperature", operator_term "==" (VStr "35"))])
              (rule "/usr/local/bin/h.py"
                 [("temperature", operator_term "!=" (VStr "35"))])
              [("operator", VStr "=="); ("threshold", VStr "35")]
              [("operator", VStr "!="); ("threshold", VStr "35")]
              [("temperature", VInt 35)] "temperature" (VInt 35)
              payload_temperature_35
              eq_refl eq_refl eq_refl eq_refl eq_refl eq_refl eq_refl)
    as [H1 H2].
  split; [rewrite H1 | rewrite H2]; reflexivity.
Defined.

(** X8. The rule that [DEFAULT_CONFIG] gives for [sensor/temperature] has
    the conditions [{"threshold": 25.0, "operator": ">"}]: two literal
    terms on fields named [threshold] and [operator].  On a payload that
    decodes to a record it returns [True] exactly when the record has a
    field [threshold] equal to 25.0 and a field [operator] equal to [">"];
    a record without a [threshold] field, such as a temperature reading,
    gives [False]. *)
Theorem default_temperature_rule_reads_its_own_keys
    (json_loads : string -> option value) (d : dict) (payload : string) :
  json_loads payload = Some (VDict d) ->
  (exists topics,
     dict_get "topics" DEFAULT_CONFIG = Some (VDict topics) /\
     dict_get "sensor/temperature" topics
       = Some (VDict default_temperature_rule)) /\
  should_execute_script json_loads default_temperature_rule payload =
    Ret (match dict_get "threshold" d, dict_get "operator" d with
         | Some t, Some o => py_eq t (VFloat float_25) && py_eq o (VStr ">")
         | _, _ => false
         end) /\
  (dict_get "threshold" d = None ->
   should_execute_script json_loads default_temperature_rule payload
     = Ret false).
Proof.
  intros Hd.
  split; [eexists; split; reflexivity |].
  rewrite (@should_execute_script_record json_loads default_temperature_rule
             [("threshold", VFloat float_25); ("operator", VStr ">")]
             d payload eq_refl Hd).
  rewrite !conditions_loop_record.
  split.
  - destruct (dict_get "threshold" d) as [t |]; [| reflexivity].
    rewrite (check_term_literal (VFloat float_25) t eq_refl). cbn [bind].
    destruct (py_eq t (VFloat float_25)); cbn [andb].
    + destruct (dict_get "operator" d) as [o |]; [| reflexivity].
      rewrite (check_term_literal (VStr ">") o eq_refl). cbn [bind].
      destruct (py_eq o (VStr ">")); reflexivity.
    + now destruct (dict_get "operator" d).
  - intros ->. reflexivity.
Qed.

Lemma default_temperature_rule_reads_its_own_keys_witness :
  should_execute_script sample_json_loads default_temperature_rule
    payload_temperature_32_5 = Ret false.
Proof.
  destruct (@default_temperature_rule_reads_its_own_keys sample_json_loads
              [("temperature", VFloat float_32_5)] payload_temperature_32_5
              eq_refl) as [_ [_ H]].
  apply H. reflexivity.
Defined.

End EvaluatorExtras.

(** ** More about the configuration merge *)

Module ConfigExtras.
Import PyValue Config DictFacts ConfigClaims Samples MoreSamples.
Local Open Scope list_scope.

Lemma dict_mem_In (key : string) (d : dict) :
  dict_mem key d = true <-> In key (dict_keys d).
Proof.
  unfold dict_mem. induction d as [| [k w] rest IH]; simpl.
  - split; [discriminate | tauto].
  - destruct (String.eqb_spec key k) as [-> | Hne].
    + split; auto.
    + rewrite IH. split; [auto | intros [Heq | Hin]; congruence].
Qed.

Lemma dict_set_absent (key : string) (v : value) (d : dict) :
  dict_get key d = None -> dict_set key v d = d ++ [(key, v)].
Proof.
  induction d as [| [k w] rest IH]; simpl; [reflexivity |].
  destruct (String.eqb key k); [discriminate |].
  intros H. now rewrite IH.
Qed.

Lemma dict_keys_set_present (key : string) (v : value) (d : dict) :
  dict_mem key d = true -> dict_keys (dict_set key v d) = dict_keys d.
Proof.
  unfold dict_mem. induction d as [| [k w] rest IH]; simpl; [discriminate |].
  destruct (String.eqb_spec key k) as [-> | Hne]; [reflexivity |].
  intros H. simpl. now rewrite IH.
Qed.

Lemma dict_keys_set (key : string) (v : value) (d : dict) :
  dict_keys (dict_set key v d) =
  if dict_mem key d then dict_keys d else dict_keys d ++ [key].
Proof.
  destruct (dict_mem key d) eqn:E.
  - now apply dict_keys_set_present.
  - unfold dict_mem in E. destruct (dict_get key d) eqn:G; [discriminate |].
    rewrite (dict_set_absent key v d G). unfold dict_keys.
    now rewrite map_app.
Qed.

(** One iteration assigns some value under its key. *)
Lemma merge_step_assigns (default : dict) (key : string) (v : value) :
  exists v', merge_step default key v = dict_set key v' default.
Proof.
  unfold merge_step.
  destruct (dict_get key default) as [[] |]; destruct v; eexists; reflexivity.
Qed.

Lemma dict_mem_merge_step (default : dict) (key key' : string) (v : value) :
  dict_mem key' (merge_step default key v) =
  String.eqb key' key || dict_mem key' default.
Proof.
  destruct (merge_step_assigns default key v) as [v' ->].
  unfold dict_mem.
  destruct (String.eqb_spec key' key) as [-> | Hne]; simpl.
  - now rewrite dict_get_set_same.
  - now rewrite (dict_get_set_other v' default Hne).
Qed.

Lemma merge_configs_keeps_keys (user default : dict) (key : string) :
  dict_mem key default = true ->
  dict_mem key (merge_configs default user) = true.
Proof.
  revert default. induction user as [| [k v] rest IH]; intros default H.
  - exact H.
  - rewrite merge_configs_cons. apply IH.
    rewrite dict_mem_merge_step, H. apply orb_true_r.
Qed.

(** X9. The keys of [merge_configs(default, user)], in order: those of
    [default] in their order, none removed, then the keys of [user] that
    [default] does not have, in the order of [user]. *)
Theorem merge_configs_keys (default user : dict) :
  NoDup (dict_keys user) ->
  dict_keys (merge_configs default user) =
  dict_keys default ++
  filter (fun k => negb (dict_mem k default)) (dict_keys user).
Proof.
  revert default.
  induction user as [| [k v] rest IH]; intros default Hnd.
  - simpl. now rewrite app_nil_r.
  - rewrite merge_configs_cons.
    inversion Hnd as [| ? ? Hnotin Hrest]; subst.
    rewrite (IH _ Hrest).
    assert (Hext : filter (fun j => negb (dict_mem j (merge_step default k v)))
                     (dict_keys rest) =
                   filter (fun j => negb (dict_mem j default)) (dict_keys rest)).
    { apply filter_ext_in. intros j Hj. rewrite dict_mem_merge_step.
      destruct (String.eqb_spec j k) as [-> | _]; [contradiction | reflexivity]. }
    rewrite Hext.
    destruct (merge_step_assigns default k v) as [v' ->].
    rewrite dict_keys_set. simpl.
    destruct (dict_mem k default); simpl; [reflexivity |].
    now rewrite <- app_assoc.
Qed.

Lemma merge_configs_keys_witness :
  NoDup (dict_keys user_config) /\
  dict_keys (merge_configs DEFAULT_CONFIG (user_config ++ [("extra", VNone)]))
    = ["mqtt"; "topics"; "logging"; "extra"]%string.
Proof.
  split; [repeat constructor; simpl; intuition discriminate |].
  rewrite (@merge_configs_keys DEFAULT_CONFIG
             (user_config ++ [("extra", VNone)])).
  - reflexivity.
  - repeat constructor; simpl; intuition discriminate.
Defined.

(** X10. [merge_configs] keeps a dict a dict: when the keys of [default]
    are distinct, so are those of the result, whatever [user] is. *)
Theorem merge_configs_keys_distinct (default user : dict) :
  NoDup (dict_keys default) ->
  NoDup (dict_keys (merge_configs default user)).
Proof.
  revert default. induction user as [| [k v] rest IH]; intros default Hnd.
  - exact Hnd.
  - rewrite merge_configs_cons. apply IH.
    destruct (merge_step_assigns default k v) as [v' ->].
    rewrite dict_keys_set.
    destruct (dict_mem k default) eqn:E; [exact Hnd |].
    apply NoDup_app; [exact Hnd | repeat constructor; simpl; tauto |].
    intros x Hx [<- | []].
    apply dict_mem_In in Hx. congruence.
Qed.

Lemma merge_configs_keys_distinct_witness :
  NoDup (dict_keys DEFAULT_CONFIG) /\
  NoDup (dict_keys (merge_configs DEFAULT_CONFIG user_config)).
Proof.
  assert (H : NoDup (dict_keys DEFAULT_CONFIG))
    by (repeat constructor; simpl; intuition discriminate).
  split; [exact H |].
  apply (@merge_configs_keys_distinct DEFAULT_CONFIG user_config H).
Defined.

(** X11. When [user] has none of the keys of [default], the merge is
    [default] followed by [user]: new sections are appended unchanged, and
    merging over an empty default gives [user] back. *)
Theorem merge_configs_disjoint (default user : dict) :
  NoDup (dict_keys user) ->
  (forall key, In key (dict_keys user) -> ~ In key (dict_keys default)) ->
  merge_configs default user = default ++ user.
Proof.
  revert default.
  induction user as [| [k v] rest IH]; intros default Hnd Hdis.
  - simpl. now rewrite app_nil_r.
  - rewrite merge_configs_cons.
    inversion Hnd as [| ? ? Hnotin Hrest]; subst.
    assert (Hk : dict_get k default = None).
    { apply dict_get_absent. apply Hdis. now left. }
    assert (Hstep : merge_step default k v = default ++ [(k, v)]).
    { unfold merge_step. rewrite Hk. now apply dict_set_absent. }
    rewrite Hstep, IH; [now rewrite <- app_assoc | exact Hrest |].
    intros key Hin. unfold dict_keys. rewrite map_app, in_app_iff.
    intros [Hd | [<- | []]].
    + apply (Hdis key); [now right | exact Hd].
    + contradiction.
Qed.

Lemma merge_configs_disjoint_witness :
  merge_configs [] user_config = user_config.
Proof.
  apply (@merge_configs_disjoint [] user_config).
  - repeat constructor; simpl; intuition discriminate.
  - intros key _ [].
Defined.

(** X12. A section of the defaults that [user] leaves out, or gives as a
    record, is still a record after the merge and still has every key the
    default section has: the lookups [config['mqtt']['broker']],
    [config['mqtt']['port']] and the like cannot miss. *)
Theorem default_section_keys_survive (default user sub : dict)
    (key : string) :
  NoDup (dict_keys user) ->
  dict_get key default = Some (VDict sub) ->
  dict_get key user = None \/ (exists u, dict_get key user = Some (VDict u)) ->
  exists merged_sub,
    dict_get key (merge_configs default user) = Some (VDict merged_sub) /\
    forall j, dict_mem j sub = true -> dict_mem j merged_sub = true.
Proof.
  intros Hnd Hd Hu.
  rewrite (merge_configs_lookup user default key Hnd).
  unfold merged_entry. rewrite Hd.
  destruct Hu as [-> | [u ->]].
  - exists sub. split; auto.
  - exists (merge_configs sub u). split; [reflexivity |].
    intros j Hj. now apply merge_configs_keeps_keys.
Qed.

Lemma default_section_keys_survive_witness :
  exists mqtt,
    dict_get "mqtt" (merge_configs DEFAULT_CONFIG user_config)
      = Some (VDict mqtt) /\
    dict_mem "client_id" mqtt = true /\ dict_mem "keepalive" mqtt = true.
Proof.
  destruct (@default_section_keys_survive DEFAULT_CONFIG user_config
              [ ("broker", VStr "localhost"); ("port", VInt 1883);
                ("username", VNone); ("password", VNone);
                ("client_id", VStr "mqtt-service"); ("keepalive", VInt 60) ]
              "mqtt") as [mqtt [Hm Hkeys]].
  - repeat constructor; simpl; intuition discriminate.
  - reflexivity.
  - right. eexists. reflexivity.
  - exists mqtt. split; [exact Hm |].
    split; apply Hkeys; reflexivity.
Defined.

Lemma dict_get_of_In (key : string) (v : value) (d : dict) :
  NoDup (dict_keys d) -> In (key, v) d -> dict_get key d = Some v.
Proof.
  induction d as [| [k w] rest IH]; simpl; intros Hnd Hin; [destruct Hin |].
  inversion Hnd as [| ? ? Hnotin Hrest]; subst.
  destruct Hin as [Heq | Hin].
  - injection Heq as -> ->. now rewrite String.eqb_refl.
  - destruct (String.eqb_spec key k) as [-> | _]; [| now apply IH].
    exfalso. apply Hnotin. unfold dict_keys.
    change k with (fst (k, v)). now apply in_map.
Qed.

Lemma dict_set_same_value (key : string) (v : value) (d : dict) :
  dict_get key d = Some v -> dict_set key v d = d.
Proof.
  induction d as [| [k w] rest IH]; simpl; [discriminate |].
  destruct (String.eqb_spec key k) as [-> | _].
  - intros H. injection H as ->. reflexivity.
  - intros H. now rewrite IH.
Qed.

(** A loop whose iterations all leave the result as it is. *)
Lemma merge_configs_fixed (user result : dict) :
  (forall key v, In (key, v) user -> merge_step result key v = result) ->
  merge_configs result user = result.
Proof.
  induction user as [| [k v] rest IH]; intros H; [reflexivity |].
  rewrite merge_configs_cons, (H k v (or_introl eq_refl)).
  apply IH. intros key w Hin. apply H. now right.
Qed.

(** An iteration that finds its own outcome already there changes
    nothing. *)
Lemma merge_step_fixed (result : dict) (key : string) (v : value) :
  dict_get key result = Some v ->
  (forall sub, v = VDict sub -> merge_configs sub sub = sub) ->
  merge_step result key v = result.
Proof.
  intros Hg Hself. unfold merge_step. rewrite Hg.
  destruct v; try now apply dict_set_same_value.
  rewrite (Hself items eq_refl). now apply dict_set_same_value.
Qed.

Lemma merge_configs_self_fixed (d : dict) :
  distinct_keys d -> merge_configs d d = d.
Proof.
  intros Hd. induction Hd as [d Hnd _ IH].
  apply merge_configs_fixed. intros key v Hin.
  apply merge_step_fixed; [now apply dict_get_of_In |].
  intros sub ->. now apply (IH key).
Qed.

(** X13. Merging the same user configuration a second time changes
    nothing: [merge_configs(merge_configs(default, user), user)] is
    [merge_configs(default, user)]; and merging a configuration over
    itself gives it back. *)
Theorem merge_configs_idempotent (default user : dict) :
  distinct_keys user ->
  merge_configs (merge_configs default user) user =
    merge_configs default user /\
  merge_configs user user = user.
Proof.
  intros Hu. split; [| now apply merge_configs_self_fixed].
  revert default.
  induction Hu as [user Hnd Hsub IH]. intros default.
  apply merge_configs_fixed. intros key v Hin.
  pose proof (merge_configs_lookup user default key Hnd) as Hlook.
  unfold merged_entry in Hlook.
  rewrite (dict_get_of_In key v user Hnd Hin) in Hlook.
  unfold merge_step.
  destruct (dict_get key default) as [[| | | | | | dk] |];
    rewrite Hlook; destruct v as [| | | | | | uk];
    try (now apply dict_set_same_value).
  - rewrite (merge_configs_self_fixed (Hsub key uk Hin)).
    now apply dict_set_same_value.
  - rewrite (merge_configs_self_fixed (Hsub key uk Hin)).
    now apply dict_set_same_value.
  - rewrite (merge_configs_self_fixed (Hsub key uk Hin)).
    now apply dict_set_same_value.
  - rewrite (merge_configs_self_fixed (Hsub key uk Hin)).
    now apply dict_set_same_value.
  - rewrite (merge_configs_self_fixed (Hsub key uk Hin)).
    now apply dict_set_same_value.
  - rewrite (merge_configs_self_fixed (Hsub key uk Hin)).
    now apply dict_set_same_value.
  - rewrite (IH key uk Hin dk). now apply dict_set_same_value.
  - rewrite (merge_configs_self_fixed (Hsub key uk Hin)).
    now apply dict_set_same_value.
Qed.

(** Distinct keys of a configuration that is written out. *)
Ltac distinct_keys_of_literal :=
  repeat match goal with
         | |- distinct_keys _ => constructor
         | |- NoDup _ => repeat constructor; simpl; intuition discriminate
         | |- forall key sub, In _ _ -> distinct_keys sub =>
             let H := fresh "Hin" in
             intros ? ? H; simpl in H;
             repeat (destruct H as [H | H];
                     [try discriminate H; injection H as <- <- |]);
             try destruct H
         end.

Lemma user_config_distinct_keys : distinct_keys user_config.
Proof. distinct_keys_of_literal. Qed.

Lemma DEFAULT_CONFIG_distinct_keys : distinct_keys DEFAULT_CONFIG.
Proof. distinct_keys_of_literal. Qed.

Lemma merge_configs_idempotent_witness :
  merge_configs (merge_configs DEFAULT_CONFIG user_config) user_config =
    merge_configs DEFAULT_CONFIG user_config /\
  merge_configs DEFAULT_CONFIG DEFAULT_CONFIG = DEFAULT_CONFIG.
Proof.
  split.
  - apply (@merge_configs_idempotent DEFAULT_CONFIG user_config
             user_config_distinct_keys).
  - apply (@merge_configs_idempotent [] DEFAULT_CONFIG
             DEFAULT_CONFIG_distinct_keys).
Defined.

End ConfigExtras.

(** ** More about the dispatcher *)

Module DispatcherExtras.
Import Dispatcher DispatcherClaims Samples MoreSamples.
Local Open Scope list_scope.

Lemma env_get_set_same (key v : string) (env : environment) :
  env_get key (env_set key v env) = Some v.
Proof.
  induction env as [| [k x] rest IH]; simpl.
  - now rewrite String.eqb_refl.
  - destruct (String.eqb key k) eqn:E; simpl; rewrite E; auto.
Qed.

Lemma env_get_set_other (key key' v : string) (env : environment) :
  key' <> key -> env_get key' (env_set key v env) = env_get key' env.
Proof.
  intros Hne. induction env as [| [k x] rest IH]; simpl.
  - destruct (String.eqb_spec key' key); congruence.
  - destruct (String.eqb_spec key k) as [-> | Hk]; simpl.
    + destruct (String.eqb_spec key' k); congruence.
    + now rewrite IH.
Qed.

Lemma skipn_length_app {A : Type} (l r : list A) :
  skipn (List.length l) (l ++ r) = r.
Proof. induction l; simpl; auto. Qed.

Lemma logger_log (l : level) (message : string) (st : state) :
  log (logger l message st) = log st ++ [(l, message)].
Proof. reflexivity. Qed.

Lemma record_run_log (c : run_call) (st : state) :
  log (record_run c st) = log st.
Proof. reflexivity. Qed.

Lemma new_records_app (st st' : state) (records : list log_record) :
  log st' = log st ++ records -> new_records st st' = records.
Proof.
  intros H. unfold new_records. rewrite H. apply skipn_length_app.
Qed.

(** X14. The environment of the handler process: [MQTT_TOPIC] is the
    topic and [MQTT_PAYLOAD] is the payload of this message, also when
    [os.environ] already had these names, and every other variable of
    [os.environ] is passed on as it is. *)
Theorem handler_environment (w : world)
    (script_path topic payload : string) (st : state) :
  path_exists w script_path = true ->
  exists call,
    run_calls (execute_script w script_path topic payload st)
      = run_calls st ++ [call] /\
    argv call = [sys_executable w; script_path] /\
    env_get "MQTT_TOPIC" (env call) = Some topic /\
    env_get "MQTT_PAYLOAD" (env call) = Some payload /\
    forall name, name <> "MQTT_TOPIC"%string -> name <> "MQTT_PAYLOAD"%string ->
      env_get name (env call) = env_get name (environ w).
Proof.
  intros He. exists (handler_call w script_path topic payload).
  rewrite (execute_script_existing w script_path topic payload st He).
  rewrite log_outcome_run_calls. simpl.
  split; [reflexivity |]. split; [reflexivity |]. split; [| split].
  - rewrite env_get_set_other by discriminate. apply env_get_set_same.
  - apply env_get_set_same.
  - intros name Ht Hp. now rewrite !env_get_set_other.
Qed.

Lemma handler_environment_witness :
  exists call,
    run_calls (execute_script world_handler_hangs "/usr/local/bin/h.py"
                 "sensor/temperature" payload_temperature_35 initial)
      = [call] /\
    env_get "MQTT_TOPIC" (env call) = Some "sensor/temperature"%string /\
    env_get "PATH" (env call) = Some "/usr/bin"%string.
Proof.
  destruct (@handler_environment world_handler_hangs "/usr/local/bin/h.py"
              "sensor/temperature" payload_temperature_35 initial eq_refl)
    as [call [Hc [_ [Ht [_ Ho]]]]].
  exists call. split; [exact Hc |]. split; [exact Ht |].
  rewrite Ho by discriminate. reflexivity.
Defined.

(** X15. For a script that is on disk, [execute_script] adds one or two
    records to the log, and one of them is an error exactly when the
    handler did not exit with status 0: on a non-zero status, on the
    timeout and on any other exception of [subprocess.run]. *)
Theorem error_record_iff_failure (w : world)
    (script_path topic payload : string) (st : state) :
  path_exists w script_path = true ->
  existsb is_error_record
    (new_records st (execute_script w script_path topic payload st)) =
  match subprocess_run w (handler_call w script_path topic payload) with
  | Completed returncode _ _ => negb (returncode =? 0)%Z
  | TimeoutExpired | OtherException _ => true
  end /\
  (1 <= List.length
          (new_records st (execute_script w script_path topic payload st))
     <= 2)%nat.
Proof.
  intros He.
  rewrite (execute_script_existing w script_path topic payload st He).
  set (call := handler_call w script_path topic payload).
  unfold log_outcome.
  destruct (subprocess_run w call) as [rc out err | | msg];
    [destruct (rc =? 0)%Z;
       [destruct (nonempty out) | destruct (nonempty err)] | |];
    (erewrite new_records_app
       by (rewrite ?logger_log, record_run_log, <- ?app_assoc; reflexivity));
    simpl; split; auto.
Qed.

Lemma error_record_iff_failure_witness :
  existsb is_error_record
    (new_records initial
       (execute_script world_handler_fails "/usr/local/bin/h.py"
          "sensor/temperature" payload_temperature_35 initial)) = true.
Proof.
  destruct (@error_record_iff_failure world_handler_fails
              "/usr/local/bin/h.py" "sensor/temperature"
              payload_temperature_35 initial eq_refl) as [H _].
  rewrite H. reflexivity.
Defined.

(** X16. A handler that runs into the timeout is given 30 seconds, is not
    run again, and leaves exactly one record, the error
    [Script ... timed out]; [execute_script] returns. *)
Theorem timed_out_handler_not_retried (w : world)
    (script_path topic payload : string) (st : state) :
  path_exists w script_path = true ->
  subprocess_run w (handler_call w script_path topic payload)
    = TimeoutExpired ->
  new_records st (execute_script w script_path topic payload st) =
    [(ERROR, ("Script " ++ script_path ++ " timed out")%string)] /\
  exists call,
    run_calls (execute_script w script_path topic payload st)
      = run_calls st ++ [call] /\
    timeout call = 30%Z /\ capture_output call = true.
Proof.
  intros He Ht.
  destruct (timed_out_handler_is_logged w script_path topic payload st He Ht)
    as [_ ->].
  split; [now apply new_records_app |].
  exists (handler_call w script_path topic payload).
  repeat split.
Qed.

Lemma timed_out_handler_not_retried_witness :
  new_records initial
    (execute_script world_handler_hangs "/usr/local/bin/h.py"
       "sensor/temperature" payload_temperature_35 initial) =
  [(ERROR, "Script /usr/local/bin/h.py timed out"%string)].
Proof.
  destruct (@timed_out_handler_not_retried world_handler_hangs
              "/usr/local/bin/h.py" "sensor/temperature"
              payload_temperature_35 initial eq_refl eq_refl) as [H _].
  exact H.
Defined.

End DispatcherExtras.

(** ** The message callback *)

Module ServiceExtras.
Import PyValue Evaluator Dispatcher Service.
Import DictFacts DispatcherClaims DispatcherExtras Samples MoreSamples.
Local Open Scope list_scope.

Lemma execute_script_grows (w : world)
    (script_path topic payload : string) (st : state) :
  exists records calls,
    log (execute_script w script_path topic payload st)
      = log st ++ records /\
    run_calls (execute_script w script_path topic payload st)
      = run_calls st ++ calls /\
    (List.length calls <= 1)%nat.
Proof.
  destruct (path_exists w script_path) eqn:He.
  - rewrite (execute_script_existing w script_path topic payload st He).
    rewrite log_outcome_run_calls.
    set (call := handler_call w script_path topic payload).
    assert (Hlog : exists records,
              log (log_outcome script_path (subprocess_run w call)
                     (record_run call st)) = log st ++ records).
    { unfold log_outcome.
      destruct (subprocess_run w call) as [rc out err | | msg];
        [destruct (rc =? 0)%Z;
           [destruct (nonempty out) | destruct (nonempty err)] | |];
        rewrite ?logger_log, record_run_log, <- ?app_assoc;
        eexists; reflexivity. }
    destruct Hlog as [records Hr].
    exists records, [call]. repeat split; auto.
  - unfold execute_script. rewrite He. simpl.
    exists [(ERROR, ("Script not found: " ++ script_path)%string)], [].
    rewrite app_nil_r. repeat split; auto.
Qed.

Section WithRuntime.

Variable utf8_decode : string -> option string.
Variable json_loads : string -> option value.
Variable w : world.

(** X17. A message on a topic that is not, letter for letter, a key of
    [config['topics']] is logged and nothing else happens: no evaluation,
    no handler.  A topic that only matches a wildcard key is such a
    topic. *)
Theorem unconfigured_topic_is_ignored (config topics : dict)
    (topic raw payload : string) (st : state) :
  utf8_decode raw = Some payload ->
  dict_get "topics" config = Some (VDict topics) ->
  dict_get topic topics = None ->
  on_message utf8_decode json_loads w config topic raw st =
  Some (Returned, received topic payload st).
Proof.
  intros Hd Ht Hk. unfold on_message. rewrite Hd, Ht.
  cbn [py_contains]. unfold dict_mem. now rewrite Hk.
Qed.

(** X18. A message on a configured topic whose rule the evaluator accepts
    is logged and handed to [execute_script] with the rule's script, the
    topic and the decoded payload; when the script is on disk this is one
    [subprocess.run] call, and the callback returns. *)
Theorem matching_message_runs_handler_once (config topics rule : dict)
    (topic raw payload script_path : string) (st : state) :
  utf8_decode raw = Some payload ->
  dict_get "topics" config = Some (VDict topics) ->
  dict_get topic topics = Some (VDict rule) ->
  should_execute_script json_loads rule payload = Ret true ->
  dict_get "script" rule = Some (VStr script_path) ->
  on_message utf8_decode json_loads w config topic raw st =
    Some (Returned,
          execute_script w script_path topic payload
            (received topic payload st)) /\
  (path_exists w script_path = true ->
   run_calls (execute_script w script_path topic payload
                (received topic payload st)) =
   run_calls st ++ [handler_call w script_path topic payload]).
Proof.
  intros Hd Ht Hk Hs Hp. split.
  - unfold on_message. rewrite Hd, Ht.
    cbn [py_contains]. unfold dict_mem. rewrite Hk.
    unfold dispatch_configured. cbn [py_getitem]. rewrite Hk.
    cbn [should_execute_script_on]. rewrite Hs.
    cbn [py_getitem]. rewrite Hp. reflexivity.
  - intros He.
    rewrite (execute_script_existing w script_path topic payload _ He).
    now rewrite log_outcome_run_calls.
Qed.

(** X19. A message on a configured topic whose rule the evaluator rejects
    is logged and nothing else happens; the rule's script is not even
    looked up. *)
Theorem rejected_message_runs_nothing (config topics : dict)
    (topic_config : value) (topic raw payload : string) (st : state) :
  utf8_decode raw = Some payload ->
  dict_get "topics" config = Some (VDict topics) ->
  dict_get topic topics = Some topic_config ->
  should_execute_script_on json_loads topic_config payload = Ret false ->
  on_message utf8_decode json_loads w config topic raw st =
  Some (Returned, received topic payload st).
Proof.
  intros Hd Ht Hk Hs. unfold on_message. rewrite Hd, Ht.
  cbn [py_contains]. unfold dict_mem. rewrite Hk.
  unfold dispatch_configured. cbn [py_getitem]. rewrite Hk.
  now rewrite Hs.
Qed.

(** X20. An exception of the evaluator is not caught by [on_message]: the
    callback raises it, after the message has been logged and without any
    handler being run. *)
Theorem evaluator_exception_leaves_on_message (config topics : dict)
    (topic_config : value) (topic raw payload : string) (e : exn)
    (st : state) :
  utf8_decode raw = Some payload ->
  dict_get "topics" config = Some (VDict topics) ->
  dict_get topic topics = Some topic_config ->
  should_execute_script_on json_loads topic_config payload = Raise e ->
  on_message utf8_decode json_loads w config topic raw st =
  Some (Raised (PyError e), received topic payload st).
Proof.
  intros Hd Ht Hk Hs. unfold on_message. rewrite Hd, Ht.
  cbn [py_contains]. unfold dict_mem. rewrite Hk.
  unfold dispatch_configured. cbn [py_getitem]. rewrite Hk.
  now rewrite Hs.
Qed.

(** X21. A rule that the evaluator accepts and that has no ['script'] key
    makes [on_message] raise [KeyError], after the message has been
    logged. *)
Theorem accepted_rule_without_script_raises (config topics rule : dict)
    (topic raw payload : string) (st : state) :
  utf8_decode raw = Some payload ->
  dict_get "topics" config = Some (VDict topics) ->
  dict_get topic topics = Some (VDict rule) ->
  should_execute_script json_loads rule payload = Ret true ->
  dict_get "script" rule = None ->
  on_message utf8_decode json_loads w config topic raw st =
  Some (Raised (PyError KeyError), received topic payload st).
Proof.
  intros Hd Ht Hk Hs Hp. unfold on_message. rewrite Hd, Ht.
  cbn [py_contains]. unfold dict_mem. rewrite Hk.
  unfold dispatch_configured. cbn [py_getitem]. rewrite Hk.
  cbn [should_execute_script_on]. rewrite Hs.
  cbn [py_getitem]. now rewrite Hp.
Qed.

(** X22. Whatever the configuration and the message, one call of
    [on_message] only adds to the log, makes at most one
    [subprocess.run] call, makes none when it ends with an exception, and
    logs nothing when the payload is not UTF-8. *)
Theorem on_message_at_most_one_run (config : dict) (topic raw : string)
    (st st' : state) (c : completion) :
  on_message utf8_decode json_loads w config topic raw st = Some (c, st') ->
  exists records calls,
    log st' = log st ++ records /\
    run_calls st' = run_calls st ++ calls /\
    (List.length calls <= 1)%nat /\
    (c <> Returned -> calls = []) /\
    (c = Raised UnicodeDecodeError -> records = []).
Proof.
  assert (Hstay : forall (st0 : state) records,
            log st0 = log st ++ records ->
            run_calls st0 = run_calls st ->
            forall c0, c0 <> Raised UnicodeDecodeError ->
            exists records calls,
              log st0 = log st ++ records /\
              run_calls st0 = run_calls st ++ calls /\
              (List.length calls <= 1)%nat /\
              (c0 <> Returned -> calls = []) /\
              (c0 = Raised UnicodeDecodeError -> records = [])).
  { intros st0 records Hl Hr c0 Hc0. exists records, [].
    rewrite app_nil_r. repeat split; auto. contradiction. }
  unfold on_message.
  destruct (utf8_decode raw) as [payload |].
  2:{ intros H; injection H as <- <-. exists [], [].
      rewrite !app_nil_r. repeat split; auto. }
  set (st1 := logger INFO _ st).
  assert (Hl1 : log st1 = log st ++ [(INFO,
             ("Received message on " ++ topic ++ ": " ++ payload)%string)])
    by reflexivity.
  assert (Hr1 : run_calls st1 = run_calls st) by reflexivity.
  destruct (dict_get "topics" config) as [topics |].
  2:{ intros H; injection H as <- <-.
      apply (Hstay st1 _ Hl1 Hr1); discriminate. }
  destruct (py_contains topics topic) as [[|] | e].
  2:{ intros H; injection H as <- <-.
      apply (Hstay st1 _ Hl1 Hr1); discriminate. }
  2:{ intros H; injection H as <- <-.
      apply (Hstay st1 _ Hl1 Hr1); discriminate. }
  unfold dispatch_configured.
  destruct (py_getitem topics topic) as [topic_config | e].
  2:{ intros H; injection H as <- <-.
      apply (Hstay st1 _ Hl1 Hr1); discriminate. }
  destruct (should_execute_script_on json_loads topic_config payload)
    as [[|] | e].
  2:{ intros H; injection H as <- <-.
      apply (Hstay st1 _ Hl1 Hr1); discriminate. }
  2:{ intros H; injection H as <- <-.
      apply (Hstay st1 _ Hl1 Hr1); discriminate. }
  destruct (py_getitem topic_config "script") as [script | e].
  2:{ intros H; injection H as <- <-.
      apply (Hstay st1 _ Hl1 Hr1); discriminate. }
  destruct (script_ref_of script) as [path | |]; [| | discriminate].
  2:{ intros H; injection H as <- <-.
      apply (Hstay st1 _ Hl1 Hr1); discriminate. }
  intros H; injection H as <- <-.
  destruct (execute_script_grows w path topic payload st1)
    as [records [calls [Hl [Hr Hn]]]].
  exists ((INFO, ("Received message on " ++ topic ++ ": " ++ payload)%string)
            :: records), calls.
  rewrite Hl, Hr, Hl1, Hr1, <- app_assoc.
  repeat split; auto; try contradiction; discriminate.
Qed.

End WithRuntime.

Lemma unconfigured_topic_is_ignored_witness :
  on_message decode_any sample_json_loads world_handler_fails
    config_wildcard "sensor/kitchen" payload_temperature_35 initial =
  Some (Returned, received "sensor/kitchen" payload_temperature_35 initial).
Proof.
  apply (@unconfigured_topic_is_ignored decode_any sample_json_loads
           world_handler_fails config_wildcard _ "sensor/kitchen"
           payload_temperature_35 payload_temperature_35 initial
           eq_refl eq_refl eq_refl).
Defined.

Lemma matching_message_runs_handler_once_witness :
  exists st',
    on_message decode_any sample_json_loads world_handler_fails
      DEFAULT_CONFIG "device/status" payload_status_offline_d1 initial
      = Some (Returned, st') /\
    run_calls st' =
      [handler_call world_handler_fails
         "/usr/local/bin/handle_device_status.py" "device/status"
         payload_status_offline_d1].
Proof.
  destruct (@matching_message_runs_handler_once decode_any
              sample_json_loads world_handler_fails DEFAULT_CONFIG _ _
              "device/status" payload_status_offline_d1
              payload_status_offline_d1
              "/usr/local/bin/handle_device_status.py" initial
              eq_refl eq_refl eq_refl eq_refl eq_refl) as [H1 H2].
  eexists. split; [exact H1 |]. now rewrite (H2 eq_refl).
Defined.

Lemma rejected_message_runs_nothing_witness :
  on_message decode_any sample_json_loads world_handler_fails
    DEFAULT_CONFIG "device/status" payload_status_online initial =
  Some (Returned, received "device/status" payload_status_online initial).
Proof.
  apply (@rejected_message_runs_nothing decode_any sample_json_loads
           world_handler_fails DEFAULT_CONFIG _ _ "device/status"
           payload_status_online payload_status_online initial
           eq_refl eq_refl eq_refl eq_refl).
Defined.

Lemma evaluator_exception_leaves_on_message_witness :
  on_message decode_any sample_json_loads world_handler_fails
    DEFAULT_CONFIG "device/status" payload_status_line initial =
  Some (Raised (PyError TypeError),
        received "device/status" payload_status_line initial).
Proof.
  apply (@evaluator_exception_leaves_on_message decode_any
           sample_json_loads world_handler_fails DEFAULT_CONFIG _ _
           "device/status" payload_status_line payload_status_line
           TypeError initial eq_refl eq_refl eq_refl eq_refl).
Defined.

Lemma accepted_rule_without_script_raises_witness :
  on_message decode_any sample_json_loads world_handler_fails
    config_wildcard "device/status" payload_status_offline_d1 initial =
  Some (Raised (PyError KeyError),
        received "device/status" payload_status_offline_d1 initial).
Proof.
  apply (@accepted_rule_without_script_raises decode_any sample_json_loads
           world_handler_fails config_wildcard _ _ "device/status"
           payload_status_offline_d1 payload_status_offline_d1 initial
           eq_refl eq_refl eq_refl eq_refl eq_refl).
Defined.

Lemma on_message_at_most_one_run_witness :
  exists records calls,
    log (received "device/status" payload_status_line initial)
      = log initial ++ records /\
    run_calls (received "device/status" payload_status_line initial)
      = run_calls initial ++ calls /\
    calls = [].
Proof.
  destruct (@on_message_at_most_one_run decode_any sample_json_loads
              world_handler_fails DEFAULT_CONFIG "device/status"
              payload_status_line initial
              (received "device/status" payload_status_line initial)
              (Raised (PyError TypeError)) eq_refl)
    as [records [calls [Hl [Hr [_ [Hc _]]]]]].
  exists records, calls. split; [exact Hl |]. split; [exact Hr |].
  apply Hc. discriminate.
Defined.

(** *** [on_connect] *)

Lemma subscribe_all_accepted (subscribe : string -> option string)
    (topics subscribed : list string) (st : state) :
  (forall t, In t topics -> subscribe t = None) ->
  exists st',
    subscribe_all subscribe topics subscribed st
      = (Returned, subscribed ++ topics, st') /\
    log st' = log st ++ map subscribed_record topics /\
    run_calls st' = run_calls st.
Proof.
  revert subscribed st.
  induction topics as [| t rest IH]; intros subscribed st Hacc.
  - exists st. simpl. rewrite !app_nil_r. auto.
  - cbn [subscribe_all]. rewrite (Hacc t (or_introl eq_refl)).
    destruct (IH (subscribed ++ [t])
                (logger INFO ("Subscribed to topic: " ++ t)%string st))
      as [st' [He [Hl Hr]]].
    { intros x Hx. apply Hacc. now right. }
    exists st'. rewrite He, Hl, Hr, logger_log, <- !app_assoc.
    repeat split; reflexivity.
Qed.

Lemma subscribe_all_rejected (subscribe : string -> option string)
    (pre post subscribed : list string) (t message : string) (st : state) :
  (forall x, In x pre -> subscribe x = None) ->
  subscribe t = Some message ->
  exists st',
    subscribe_all subscribe (pre ++ t :: post) subscribed st
      = (Raised (ClientError message), subscribed ++ pre, st') /\
    log st' = log st ++ map subscribed_record pre /\
    run_calls st' = run_calls st.
Proof.
  revert subscribed st.
  induction pre as [| p pre IH]; intros subscribed st Hacc Hrej.
  - exists st. cbn [app subscribe_all map].
    rewrite Hrej, !app_nil_r. auto.
  - cbn [app subscribe_all]. rewrite (Hacc p (or_introl eq_refl)).
    destruct (IH (subscribed ++ [p])
                (logger INFO ("Subscribed to topic: " ++ p)%string st))
      as [st' [He [Hl Hr]]]; auto.
    { intros x Hx. apply Hacc. now right. }
    exists st'. rewrite He, Hl, Hr, logger_log, <- !app_assoc.
    repeat split; reflexivity.
Qed.

Lemma on_connect_subscribes_all_helper
    (subscribe : string -> option string) (config topics : dict)
    (reason_code : string) (subscribed : list string) (st : state) :
  dict_get "topics" config = Some (VDict topics) ->
  (forall t, subscribe t = None) ->
  exists st',
    on_connect subscribe config reason_code subscribed st
      = (Returned, subscribed ++ dict_keys topics, st').
Proof.
  intros Ht Hacc. unfold on_connect. rewrite Ht. cbn [py_keys].
  destruct (subscribe_all_accepted subscribe (dict_keys topics) subscribed
              (logger INFO ("Connected to MQTT broker with result code "
                            ++ reason_code)%string st)
              (fun t _ => Hacc t))
    as [st' [He _]].
  exists st'. exact He.
Qed.

(** X23. When the client accepts every configured topic, [on_connect]
    subscribes to each key of [config['topics']] once, in the order of the
    configuration, logs the connection and one record per topic, and
    returns. *)
Theorem on_connect_subscribes_every_topic
    (subscribe : string -> option string) (config topics : dict)
    (reason_code : string) (subscribed : list string) (st : state) :
  dict_get "topics" config = Some (VDict topics) ->
  (forall t, In t (dict_keys topics) -> subscribe t = None) ->
  exists st',
    on_connect subscribe config reason_code subscribed st
      = (Returned, subscribed ++ dict_keys topics, st') /\
    log st' =
      log st ++
      (INFO, ("Connected to MQTT broker with result code "
              ++ reason_code)%string)
      :: map subscribed_record (dict_keys topics) /\
    run_calls st' = run_calls st.
Proof.
  intros Ht Hacc. unfold on_connect. rewrite Ht. cbn [py_keys].
  destruct (subscribe_all_accepted subscribe (dict_keys topics) subscribed
              (logger INFO ("Connected to MQTT broker with result code "
                            ++ reason_code)%string st) Hacc)
    as [st' [He [Hl Hr]]].
  exists st'. rewrite He, Hl, Hr, logger_log, <- app_assoc.
  repeat split; reflexivity.
Qed.

Lemma on_connect_subscribes_every_topic_witness :
  exists st',
    on_connect subscribe_any DEFAULT_CONFIG "Success" [] initial
      = (Returned, ["sensor/temperature"; "device/status"]%string, st').
Proof.
  destruct (@on_connect_subscribes_every_topic subscribe_any DEFAULT_CONFIG
              _ "Success" [] initial eq_refl (fun t _ => eq_refl))
    as [st' [H _]].
  exists st'. exact H.
Defined.

(** X24. When the client rejects a topic, [on_connect] raises the
    client's exception at that topic: the topics before it are subscribed,
    the rejected topic and every topic after it are not. *)
Theorem on_connect_stops_at_rejected_topic
    (subscribe : string -> option string) (config topics : dict)
    (pre post : list string) (t message reason_code : string)
    (subscribed : list string) (st : state) :
  dict_get "topics" config = Some (VDict topics) ->
  dict_keys topics = pre ++ t :: post ->
  (forall x, In x pre -> subscribe x = None) ->
  subscribe t = Some message ->
  exists st',
    on_connect subscribe config reason_code subscribed st
      = (Raised (ClientError message), subscribed ++ pre, st') /\
    log st' =
      log st ++
      (INFO, ("Connected to MQTT broker with result code "
              ++ reason_code)%string)
      :: map subscribed_record pre.
Proof.
  intros Ht Hk Hacc Hrej. unfold on_connect. rewrite Ht. cbn [py_keys].
  rewrite Hk.
  destruct (subscribe_all_rejected subscribe pre post subscribed t
              (logger INFO ("Connected to MQTT broker with result code "
                            ++ reason_code)%string st) Hacc Hrej)
    as [st' [He [Hl _]]].
  exists st'. rewrite He, Hl, logger_log, <- app_assoc.
  split; reflexivity.
Qed.

Lemma on_connect_stops_at_rejected_topic_witness :
  exists st',
    on_connect subscribe_non_empty config_empty_topic "Success" [] initial
      = (Raised (ClientError "Invalid topic."), ["a"%string], st').
Proof.
  destruct (@on_connect_stops_at_rejected_topic subscribe_non_empty
              config_empty_topic _ ["a"%string] ["c"%string] EmptyString
              "Invalid topic." "Success" [] initial eq_refl eq_refl)
    as [st' [H _]].
  - intros x [<- | []]. reflexivity.
  - reflexivity.
  - exists st'. exact H.
Defined.

Lemma merge_configs_has_user_keys (user default : dict) (key : string) :
  In key (dict_keys user) ->
  dict_mem key (Config.merge_configs default user) = true.
Proof.
  revert default.
  induction user as [| [k v] rest IH]; intros default Hin; [destruct Hin |].
  rewrite ConfigClaims.merge_configs_cons.
  destruct Hin as [Heq | Hin].
  - simpl in Heq. subst k.
    apply ConfigExtras.merge_configs_keeps_keys.
    rewrite ConfigExtras.dict_mem_merge_step.
    now rewrite String.eqb_refl.
  - now apply IH.
Qed.

(** X25. The topics of [DEFAULT_CONFIG] cannot be configured away: for a
    user configuration that leaves ['topics'] out or gives it as a record,
    [on_connect] on the merged configuration subscribes to
    [sensor/temperature] and [device/status] as well as to the user's
    topics. *)
Theorem default_topics_stay_subscribed
    (subscribe : string -> option string) (user : dict)
    (reason_code : string) (subscribed : list string) (st : state) :
  NoDup (dict_keys user) ->
  dict_get "topics" user = None \/
    (exists u, dict_get "topics" user = Some (VDict u)) ->
  (forall t, subscribe t = None) ->
  exists subs st',
    on_connect subscribe (Config.merge_configs DEFAULT_CONFIG user)
      reason_code subscribed st = (Returned, subs, st') /\
    In "sensor/temperature"%string subs /\ In "device/status"%string subs /\
    (forall u t, dict_get "topics" user = Some (VDict u) ->
       In t (dict_keys u) -> In t subs).
Proof.
  intros Hnd Hu Hacc.
  pose proof (ConfigClaims.merge_configs_lookup user DEFAULT_CONFIG
                "topics" Hnd) as Hlook.
  unfold Config.merged_entry in Hlook.
  set (default_topics :=
         [ ("sensor/temperature"%string, VDict
              [ ("script"%string,
                 VStr "/usr/local/bin/handle_temperature.py");
                ("conditions"%string, VDict
                   [ ("threshold"%string, VFloat float_25);
                     ("operator"%string, VStr ">") ]) ]);
           ("device/status"%string, VDict
              [ ("script"%string,
                 VStr "/usr/local/bin/handle_device_status.py");
                ("conditions"%string,
                 VDict [ ("status"%string, VStr "offline") ]) ]) ]).
  assert (Hdef : dict_get "topics" DEFAULT_CONFIG
                 = Some (VDict default_topics)) by reflexivity.
  rewrite Hdef in Hlook.
  assert (Hmerged : exists topics,
            dict_get "topics" (Config.merge_configs DEFAULT_CONFIG user)
              = Some (VDict topics) /\
            dict_mem "sensor/temperature" topics = true /\
            dict_mem "device/status" topics = true /\
            (forall u t, dict_get "topics" user = Some (VDict u) ->
               In t (dict_keys u) -> dict_mem t topics = true)).
  { destruct Hu as [Hn | [u Hsome]].
    - rewrite Hn in Hlook. exists default_topics.
      repeat split; auto. intros u t Hc. congruence.
    - rewrite Hsome in Hlook.
      exists (Config.merge_configs default_topics u).
      split; [exact Hlook |].
      split; [now apply ConfigExtras.merge_configs_keeps_keys |].
      split; [now apply ConfigExtras.merge_configs_keeps_keys |].
      intros u' t Hu' Hin.
      assert (u' = u) by congruence. subst u'.
      now apply merge_configs_has_user_keys. }
  destruct Hmerged as [topics [Ht [H1 [H2 H3]]]].
  destruct (@on_connect_subscribes_all_helper subscribe
              (Config.merge_configs DEFAULT_CONFIG user) topics reason_code
              subscribed st Ht Hacc) as [st' He].
  exists (subscribed ++ dict_keys topics), st'.
  split; [exact He |].
  split; [apply in_or_app; right; now apply ConfigExtras.dict_mem_In |].
  split; [apply in_or_app; right; now apply ConfigExtras.dict_mem_In |].
  intros u t Hu' Hin. apply in_or_app; right.
  apply ConfigExtras.dict_mem_In. now apply (H3 u).
Qed.

Lemma default_topics_stay_subscribed_witness :
  exists subs st',
    on_connect subscribe_any
      (Config.merge_configs DEFAULT_CONFIG user_config_door)
      "Success" [] initial = (Returned, subs, st') /\
    In "sensor/temperature"%string subs /\ In "home/door"%string subs.
Proof.
  destruct (@default_topics_stay_subscribed subscribe_any user_config_door
              "Success" [] initial)
    as [subs [st' [He [H1 [_ H3]]]]].
  - repeat constructor; simpl; intuition discriminate.
  - right. eexists. reflexivity.
  - reflexivity.
  - exists subs, st'. split; [exact He |]. split; [exact H1 |].
    apply (H3 [("home/door"%string,
                VDict [("script"%string, VStr "/usr/local/bin/door.py")])]).
    + reflexivity.
    + left; reflexivity.
Defined.

(** *** [load_config] *)

(** X26. [load_config] as [__init__] calls it, before [self.logger]
    exists: it returns only when the file is there and decodes to a
    record, and then returns the merge over [DEFAULT_CONFIG] without
    logging.  In every other case (no file, a file that cannot be read or
    decoded, a file that decodes to something else) the fallback to the
    defaults is never reached: the call raises [AttributeError]. *)
Theorem load_config_in_init_never_defaults (path : string)
    (file : config_file) :
  (forall user, file = FileDecodes (VDict user) ->
     load_config_in_init path file
       = Ret (Config.merge_configs DEFAULT_CONFIG user, [])) /\
  ((forall user, file <> FileDecodes (VDict user)) ->
     load_config_in_init path file = Raise AttributeError).
Proof.
  split.
  - intros user ->. reflexivity.
  - intros Hn. destruct file as [| reason | v]; try reflexivity.
    destruct v; try reflexivity. exfalso. now apply (Hn items).
Qed.

Lemma load_config_in_init_never_defaults_witness :
  load_config_in_init "/etc/mqtt-service/config.json" FileMissing
    = Raise AttributeError /\
  load_config_in_init "/etc/mqtt-service/config.json"
    (FileDecodes (VDict user_config))
    = Ret (Config.merge_configs DEFAULT_CONFIG user_config, []).
Proof.
  destruct (@load_config_in_init_never_defaults
              "/etc/mqtt-service/config.json" FileMissing) as [_ H1].
  destruct (@load_config_in_init_never_defaults
              "/etc/mqtt-service/config.json"
              (FileDecodes (VDict user_config))) as [H2 _].
  split; [apply H1; discriminate | apply (H2 user_config eq_refl)].
Defined.

(** X27. Whenever [load_config] returns, with or without a logger, the
    configuration it returns has every top-level key of [DEFAULT_CONFIG];
    unless the file decoded to a record it is [DEFAULT_CONFIG] itself and
    exactly one record was logged, which needs the logger. *)
Theorem load_config_result_has_default_keys (has_logger : bool)
    (path : string) (file : config_file) (config : dict)
    (records : list log_record) :
  load_config has_logger path file = Ret (config, records) ->
  (forall key, dict_mem key DEFAULT_CONFIG = true ->
     dict_mem key config = true) /\
  ((forall user, file <> FileDecodes (VDict user)) ->
   config = DEFAULT_CONFIG /\ List.length records = 1%nat /\
   has_logger = true).
Proof.
  intros H.
  destruct file as [| reason | v].
  - destruct has_logger; simpl in H; [| discriminate].
    injection H as <- <-. repeat split; auto.
  - destruct has_logger; simpl in H; [| discriminate].
    injection H as <- <-. repeat split; auto.
  - destruct v;
      try (destruct has_logger; simpl in H; [| discriminate];
           injection H as <- <-; repeat split; auto; fail).
    simpl in H. injection H as <- <-. split.
    + intros key Hk. now apply ConfigExtras.merge_configs_keeps_keys.
    + intros Hn. exfalso. now apply (Hn items).
Qed.

Lemma load_config_result_has_default_keys_witness :
  dict_mem "topics"
    (Config.merge_configs DEFAULT_CONFIG user_config_door) = true.
Proof.
  destruct (@load_config_result_has_default_keys false
              "/etc/mqtt-service/config.json"
              (FileDecodes (VDict user_config_door))
              (Config.merge_configs DEFAULT_CONFIG user_config_door) []
              eq_refl) as [H _].
  apply H. reflexivity.
Defined.

End ServiceExtras.
